(** * Multi-agent research pipeline ([research_agent.py])

    A shallow embedding of [MultiAgentResearchSystem]: the mock search tool,
    the findings store, the worker agent, the lead agent (decomposition,
    fan-out, synthesis) and the quality evaluator, followed by the
    properties the specification states about them.

    Conventions of the embedding.
    - A Python [str] is a [string]; a character is read as a code point
      below 256.  A value that is a [str] or [None] is a [pytext].
    - A Python exception is represented by its text [str(e)].  Only
      instances of [Exception] are considered, the class every handler of
      the program catches.
    - The program's methods run in the monad [M]: they thread the object's
      [research_database] and the state of the outside world, and they
      either return a value or raise.  State changes made before a raise
      are kept, as in Python.
    - [print] calls and the tracing decorators are instrumentation and are
      left out. *)

From Stdlib Require Import Ascii String QArith Sorted.
From stdpp Require Import base strings list gmap pretty.

Local Open Scope string_scope.
Local Open Scope Z_scope.
Local Open Scope list_scope.

(** ** Python string primitives *)

Module PyStr.

Definition LF : ascii := Ascii.ascii_of_nat 10.
Definition newline : string := String LF "".

(** [str.isspace] on one character, for code points below 256:
    TAB..CR, FS..US, SPACE, NEL and NBSP. *)
Definition isspace (c : ascii) : bool :=
  let n := Ascii.N_of_ascii c in
  ((9 <=? n) && (n <=? 13) || (28 <=? n) && (n <=? 32)
   || (n =? 133) || (n =? 160))%N.

Fixpoint lstrip (s : string) : string :=
  match s with
  | String c s' => if isspace c then lstrip s' else s
  | EmptyString => EmptyString
  end.

Fixpoint rstrip (s : string) : string :=
  match s with
  | EmptyString => EmptyString
  | String c s' =>
      match rstrip s' with
      | EmptyString => if isspace c then EmptyString else String c EmptyString
      | r => String c r
      end
  end.

(** [s.strip()] *)
Definition strip (s : string) : string := rstrip (lstrip s).

(** [s.split(sep)] for a one-character separator: one more piece than
    there are separators, the empty string gives one empty piece. *)
Fixpoint split (sep : ascii) (s : string) : list string :=
  match s with
  | EmptyString => [EmptyString]
  | String c s' =>
      if Ascii.eqb c sep then EmptyString :: split sep s'
      else match split sep s' with
           | piece :: pieces => String c piece :: pieces
           | [] => [String c EmptyString]
           end
  end.

(** [s.startswith(p)] *)
Fixpoint startswith (p s : string) : bool :=
  match p, s with
  | EmptyString, _ => true
  | String a p', String b s' => Ascii.eqb a b && startswith p' s'
  | String _ _, EmptyString => false
  end.

(** Truth value of a string: non-empty. *)
Definition truthy (s : string) : bool :=
  match s with EmptyString => false | String _ _ => true end.

(** [sep.join(parts)] *)
Fixpoint join (sep : string) (parts : list string) : string :=
  match parts with
  | [] => EmptyString
  | [x] => x
  | x :: rest => x +:+ sep +:+ join sep rest
  end.

(** [str(n)] for the result of a [len]. *)
Definition of_nat (n : nat) : string := pretty n.

(** [needle in s] *)
Definition contains (needle s : string) : Prop :=
  exists before after, s = before +:+ needle +:+ after.

End PyStr.

(** ** Data model *)

(** A value that is a [str] or [None]: the [message.content] of a
    completion, and what the program copies it into. *)
Inductive pytext :=
| Str (s : string)
| PyNone.
Coercion Str : string >-> pytext.

(** The dict [web_search] returns. *)
Record SearchResult := {
  query : string;
  results : list string;
  sources : list string
}.

(** The dict a worker agent returns ([research_data]). *)
Record AgentRecord := {
  agent_id : Z;
  topic : string;
  findings : pytext;
  record_sources : list string;
  search_query : string
}.

(** The dict [lead_agent] returns. *)
Record FinalReport := {
  research_question : string;
  subtopics : list string;
  individual_research : list AgentRecord;
  final_synthesis : pytext;
  total_agents_used : nat
}.

(** ** The language-model provider ([client.chat.completions.create]) *)

Record message := { role : string; content : string }.

Record request := {
  model : string;
  messages : list message;
  max_tokens : Z
}.

(** What the program inspects of a response: whether the response object
    is there at all, and the [message.content] of each of its [choices],
    which the API gives as a [str] or as [None]. *)
Inductive completion :=
| NoResponse
| Choices (contents : list pytext).

(** [response and response.choices], then [response.choices[0].message.content]. *)
Definition first_choice (response : completion) : option pytext :=
  match response with
  | Choices (content :: _) => Some content
  | Choices [] => None
  | NoResponse => None
  end.

(** ** The evaluation service ([eval_client.run_evaluation]) *)

(** The fields [evaluate_research_quality] passes to [Example(...)]. *)
Record Example := {
  input : string;
  actual_output : pytext;
  retrieval_context : list pytext
}.

Inductive Scorer :=
| FaithfulnessScorer (threshold : Q)
| AnswerRelevancyScorer (threshold : Q).

Record eval_request := {
  examples : list Example;
  scorers : list Scorer;
  eval_model : string;
  project_name : string
}.

Record ScorerData (Score : Type) := {
  name : string;
  score : Score
}.
Arguments name {Score} _.
Arguments score {Score} _.

(** One element of the list the service returns; [scorers_data] may be
    [None] in a malformed result. *)
Record ScoringResult (Score : Type) := {
  success : bool;
  scorers_data : option (list (ScorerData Score))
}.
Arguments success {Score} _.
Arguments scorers_data {Score} _.

(** The dict [evaluate_research_quality] returns: either the three-key
    summary or the two-key failure dict, whose [evaluation_success] is
    [False]. *)
Inductive EvaluationSummary (Score : Type) :=
| Summary (evaluation_success : bool)
          (scores : gmap string Score)
          (evaluation_details : list (ScorerData Score))
| EvaluationFailed (error : string).
Arguments Summary {Score} _ _ _.
Arguments EvaluationFailed {Score} _.

Definition evaluation_success {Score} (e : EvaluationSummary Score) : bool :=
  match e with
  | Summary ok _ _ => ok
  | EvaluationFailed _ => false
  end.

(** ** Outcomes and the external collaborators *)

Definition exn := string.

Inductive outcome (A : Type) :=
| Return (a : A)
| Raise (e : exn).
Arguments Return {A} _.
Arguments Raise {A} _.

(** The type check of [sep.join(items)]: the items from index [i] on as
    strings, or the [TypeError] of the first one that is [None]. *)
Fixpoint str_items (i : nat) (items : list pytext) : outcome (list string) :=
  match items with
  | [] => Return []
  | Str s :: rest =>
      match str_items (S i) rest with
      | Return strings => Return (s :: strings)
      | Raise e => Raise e
      end
  | PyNone :: _ =>
      Raise ("sequence item " +:+ PyStr.of_nat i
             +:+ ": expected str instance, NoneType found")
  end.

(** [sep.join(items)] on items that may be [None]. *)
Definition join_items (sep : string) (items : list pytext) : outcome string :=
  match str_items 0 items with
  | Return strings => Return (PyStr.join sep strings)
  | Raise e => Raise e
  end.

(** The collaborators the module reaches through its globals [client] and
    [eval_client] and through the classes it imports.  Each call may
    change the outside world and may raise.  [repr] is Python's built-in
    formatting of a list of strings inside an f-string; the program only
    passes its result on to the provider.  [example_error] is the
    validation of the imported class [Example]: the error its
    constructor raises for the given fields, or [None] when it accepts
    them. *)
Class Providers := {
  World : Type;
  Score : Type;
  chat_completions_create : request -> World -> outcome completion * World;
  run_evaluation :
    eval_request -> World -> outcome (list (ScoringResult Score)) * World;
  repr : list string -> string;
  example_error : Example -> option exn
}.

(** ** The mock search tool *)

(** [web_search]: needs no provider and no state. *)
Definition web_search (q : string) : SearchResult :=
  {| query := q;
     results := [ "Research finding about " +:+ q +:+ " from source 1";
                  "Additional information on " +:+ q +:+ " from source 2";
                  "Expert analysis of " +:+ q +:+ " from source 3" ];
     sources := [ "source1.com"; "source2.org"; "source3.edu" ] |}.

(** ** The program *)

Section Program.
Context `{P : Providers}.

(** The object ([self.research_database]) together with the world the
    providers live in. *)
Record system := {
  research_database : list AgentRecord;
  world : World
}.

Definition M (A : Type) : Type := system -> outcome A * system.

Definition ret {A} (a : A) : M A := fun s => (Return a, s).

Definition bind {A B} (m : M A) (k : A -> M B) : M B :=
  fun s => match m s with
           | (Return a, s') => k a s'
           | (Raise e, s') => (Raise e, s')
           end.

Definition raise {A} (e : exn) : M A := fun s => (Raise e, s).

(** An operation that needs neither the object nor the world. *)
Definition lift {A} (o : outcome A) : M A := fun s => (o, s).

(** [try: body  except Exception as e: handler(e)] *)
Definition try_except {A} (body : M A) (handler : exn -> M A) : M A :=
  fun s => match body s with
           | (Return a, s') => (Return a, s')
           | (Raise e, s') => handler e s'
           end.

Notation "x <- m ;; k" := (bind m (fun x => k))
  (at level 100, m at next level, right associativity).

(** A call of [client.chat.completions.create]. *)
Definition create (r : request) : M completion :=
  fun s => let (o, w) := chat_completions_create r (world s) in
           (o, {| research_database := research_database s; world := w |}).

(** A call of [eval_client.run_evaluation]. *)
Definition evaluate (r : eval_request) : M (list (ScoringResult Score)) :=
  fun s => let (o, w) := run_evaluation r (world s) in
           (o, {| research_database := research_database s; world := w |}).

(** *** Findings store *)

Definition store_research (data : AgentRecord) : M bool :=
  fun s => (Return true,
            {| research_database := research_database s ++ [data];
               world := world s |}).

(** *** Worker agent *)

Definition research_request (topic : string) (search_results : SearchResult)
  : request :=
  {| model := "gpt-3.5-turbo";
     messages :=
       [ {| role := "system";
            content := "You are a research agent specializing in " +:+ topic
              +:+ ". Provide detailed analysis based on the search results." |};
         {| role := "user";
            content := "Analyze this research data: "
              +:+ repr (results search_results) |} ];
     max_tokens := 300 |}.

(** The record of the [except] branch. *)
Definition degraded_record (topic : string) (agent_id : Z) (e : exn)
  : AgentRecord :=
  {| agent_id := agent_id;
     topic := topic;
     findings := "Research failed: " +:+ e;
     record_sources := [];
     search_query := topic |}.

(** [research_agent], with the two methods it calls on [self] as
    arguments. *)
Definition research_agent_with
    (search : string -> M SearchResult) (store : AgentRecord -> M bool)
    (topic : string) (agent_id : Z) : M AgentRecord :=
  try_except
    (search_results <- search (topic +:+ " research analysis") ;;
     response <- create (research_request topic search_results) ;;
     let findings :=
       match first_choice response with
       | Some content => content
       | None => Str ("Analysis of " +:+ topic
                      +:+ " based on available research data.")
       end in
     let research_data :=
       {| agent_id := agent_id;
          topic := topic;
          findings := findings;
          record_sources := sources search_results;
          search_query := query search_results |} in
     _ <- store research_data ;;
     ret research_data)
    (fun e => ret (degraded_record topic agent_id e)).

(** [research_agent] as the class defines it: the search is
    [web_search], the store is [store_research]. *)
Definition research_agent : string -> Z -> M AgentRecord :=
  research_agent_with (fun q => ret (web_search q)) store_research.

(** *** Lead agent *)

Definition planning_request (research_question : string) : request :=
  {| model := "gpt-3.5-turbo";
     messages :=
       [ {| role := "system";
            content := "You are a research coordinator. Break down complex research questions into 3 specific subtopics for specialized agents." |};
         {| role := "user";
            content := "Break down this research question into 3 subtopics: "
              +:+ research_question |} ];
     max_tokens := 200 |}.

(** The list comprehension of the parsing line:
    [[topic.strip() for topic in lines
      if topic.strip() and not topic.strip().startswith('#')]] *)
Fixpoint subtopic_lines (lines : list string) : list string :=
  match lines with
  | [] => []
  | topic :: rest =>
      if PyStr.truthy (PyStr.strip topic)
         && negb (PyStr.startswith "#" (PyStr.strip topic))
      then PyStr.strip topic :: subtopic_lines rest
      else subtopic_lines rest
  end.

(** The whole parsing line, with its [[:3]]. *)
Definition parse_subtopics (subtopics_text : string) : list string :=
  take 3 (subtopic_lines (PyStr.split PyStr.LF subtopics_text)).

Definition default_subtopics : list string :=
  [ "Technical challenges"; "Economic factors"; "Policy considerations" ].

(** Decomposition: the planning call, the parsing and the fallback.  A
    content that is [None] has no [split]: the [AttributeError] leaves
    for the handler of [lead_agent]. *)
Definition decompose (research_question : string) : M (list string) :=
  planning_response <- create (planning_request research_question) ;;
  subtopics <-
    match first_choice planning_response with
    | Some (Str subtopics_text) => ret (parse_subtopics subtopics_text)
    | Some PyNone => raise "'NoneType' object has no attribute 'split'"
    | None => ret []
    end ;;
  ret (match subtopics with
       | [] => default_subtopics
       | _ :: _ => subtopics
       end).

(** The fan-out loop [for i, subtopic in enumerate(subtopics)], from
    index [i] on, with the [research_results] collected so far.  A
    worker that raises is skipped. *)
Fixpoint delegate (worker : string -> Z -> M AgentRecord)
    (i : nat) (subtopics : list string)
    (research_results : list AgentRecord) : M (list AgentRecord) :=
  match subtopics with
  | [] => ret research_results
  | subtopic :: rest =>
      research_results' <-
        try_except
          (result <- worker subtopic (Z.of_nat i + 1) ;;
           ret (research_results ++ [result]))
          (fun _ => ret research_results) ;;
      delegate worker (S i) rest research_results'
  end.

Definition synthesis_request (research_question all_findings : string)
  : request :=
  {| model := "gpt-3.5-turbo";
     messages :=
       [ {| role := "system";
            content := "You are a senior researcher. Synthesize multiple research findings into a comprehensive report." |};
         {| role := "user";
            content := "Original question: " +:+ research_question
              +:+ PyStr.newline +:+ PyStr.newline
              +:+ "Research findings:" +:+ PyStr.newline +:+ all_findings
              +:+ PyStr.newline +:+ PyStr.newline
              +:+ "Create a comprehensive synthesis." |} ];
     max_tokens := 500 |}.

(** The fallback text of the synthesis. *)
Definition synthesis_template (research_question : string) (agents : nat)
  : string :=
  "Synthesis of research on: " +:+ research_question
    +:+ PyStr.newline +:+ PyStr.newline
    +:+ "Based on findings from " +:+ PyStr.of_nat agents
    +:+ " research agents.".

Definition synthesis_failure : string :=
  "Research could not be completed due to technical issues.".

(** The synthesis step: [if research_results: ... else: ...].  The join
    raises a [TypeError] when a finding is [None]. *)
Definition synthesize (research_question : string)
    (research_results : list AgentRecord) : M pytext :=
  match research_results with
  | _ :: _ =>
      all_findings <-
        lift (join_items PyStr.newline (map findings research_results)) ;;
      synthesis_response <-
        create (synthesis_request research_question all_findings) ;;
      ret (match first_choice synthesis_response with
           | Some content => content
           | None => Str (synthesis_template research_question
                            (length research_results))
           end)
  | [] => ret (Str synthesis_failure)
  end.

(** The report of the [except] branch of [lead_agent]. *)
Definition minimal_report (research_question : string) (e : exn)
  : FinalReport :=
  {| research_question := research_question;
     subtopics := [ "Error occurred" ];
     individual_research := [];
     final_synthesis := "Research failed due to error: " +:+ e;
     total_agents_used := 0 |}.

(** The [try] block of [lead_agent], from the fan-out on. *)
Definition lead_agent_from (worker : string -> Z -> M AgentRecord)
    (research_question : string) (subtopics : list string) : M FinalReport :=
  research_results <- delegate worker 0 subtopics [] ;;
  final_synthesis <- synthesize research_question research_results ;;
  ret {| research_question := research_question;
         subtopics := subtopics;
         individual_research := research_results;
         final_synthesis := final_synthesis;
         total_agents_used := length research_results |}.

(** The [try] block of [lead_agent]. *)
Definition lead_agent_try (worker : string -> Z -> M AgentRecord)
    (research_question : string) : M FinalReport :=
  subtopics <- decompose research_question ;;
  lead_agent_from worker research_question subtopics.

(** [lead_agent], with the worker method it calls on [self] as an
    argument. *)
Definition lead_agent_with (worker : string -> Z -> M AgentRecord)
    (research_question : string) : M FinalReport :=
  try_except (lead_agent_try worker research_question)
             (fun e => ret (minimal_report research_question e)).

(** [lead_agent] as the class defines it: the worker is
    [research_agent]. *)
Definition lead_agent : string -> M FinalReport :=
  lead_agent_with research_agent.

(** *** Quality evaluator *)

(** [results[0]] *)
Definition first_result {A} (l : list A) : M A :=
  match l with
  | x :: _ => ret x
  | [] => raise "list index out of range"
  end.

(** Iterating over [scorers_data]. *)
Definition iterate {A} (o : option (list A)) : M (list A) :=
  match o with
  | Some l => ret l
  | None => raise "'NoneType' object is not iterable"
  end.

(** The dict comprehension [{scorer.name: scorer.score for scorer in data}]:
    a later entry replaces an earlier one of the same name. *)
Definition scores_of (data : list (ScorerData Score)) : gmap string Score :=
  foldl (fun m scorer => <[name scorer := score scorer]> m) ∅ data.

(** The fields of the example built from a report. *)
Definition example_of (report : FinalReport) : Example :=
  {| input := research_question report;
     actual_output := final_synthesis report;
     retrieval_context := map findings (individual_research report) |}.

(** [Example(...)]: the constructor validates its fields and either
    raises or gives the example. *)
Definition new_example (fields : Example) : M Example :=
  match example_error fields with
  | Some e => raise e
  | None => ret fields
  end.

(** The arguments of [run_evaluation] for an example; the two scorers are
    built with constant thresholds. *)
Definition evaluation_request_for (example : Example) : eval_request :=
  {| examples := [ example ];
     scorers := [ FaithfulnessScorer (7 # 10); AnswerRelevancyScorer (6 # 10) ];
     eval_model := "gpt-3.5-turbo";
     project_name := "multi_agent_research_eval" |}.

Definition evaluation_request (report : FinalReport) : eval_request :=
  evaluation_request_for (example_of report).

(** The example is built before the [try]: an error of its constructor
    is not caught here. *)
Definition evaluate_research_quality (report : FinalReport)
  : M (EvaluationSummary Score) :=
  example <- new_example (example_of report) ;;
  try_except
    (results <- evaluate (evaluation_request_for example) ;;
     first <- first_result results ;;
     data <- iterate (scorers_data first) ;;
     ret (Summary (success first) (scores_of data) data))
    (fun e => ret (EvaluationFailed e)).

End Program.

(** ** Scripted providers

    Test doubles used by the examples: the language model answers from a
    script, one entry per call, and answers with no response once the
    script is exhausted; the evaluation service gives one fixed outcome.
    Scores are rationals, [repr] is a stand-in that brackets the
    comma-separated items, and [Example] rejects an empty input and
    nothing else, with a stand-in error text. *)

Module Scripted.

Definition script : Type :=
  list (outcome completion) * outcome (list (ScoringResult Q)).

Definition next_completion (r : request) (w : script)
  : outcome completion * script :=
  match fst w with
  | o :: rest => (o, (rest, snd w))
  | [] => (Return NoResponse, w)
  end.

Definition fixed_evaluation (r : eval_request) (w : script)
  : outcome (list (ScoringResult Q)) * script :=
  (snd w, w).

Definition providers : Providers :=
  {| World := script;
     Score := Q;
     chat_completions_create := next_completion;
     run_evaluation := fixed_evaluation;
     repr := fun l => "[" +:+ PyStr.join ", " l +:+ "]";
     example_error := fun fields =>
       match input fields with
       | EmptyString => Some "Input must be a non-empty string"
       | String _ _ => None
       end |}.

(** A fresh object ([__init__]) in a world with the given script. *)
Definition fresh (answers : list (outcome completion))
    (verdict : outcome (list (ScoringResult Q))) : @system providers :=
  @Build_system providers [] (answers, verdict).

Definition text (s : string) : outcome completion :=
  Return (Choices [Str s]).

(** A worker that fails on the second subtopic and otherwise returns a
    fixed finding; it stands for an overridden [research_agent] whose
    failure escapes. *)
Definition flaky_worker (topic : string) (agent_id : Z)
  : @M providers AgentRecord :=
  if Z.eqb agent_id 2 then raise "worker crashed"
  else ret {| agent_id := agent_id; topic := topic; findings := "ok";
              record_sources := []; search_query := topic |}.

(** A worker that always fails. *)
Definition dead_worker (topic : string) (agent_id : Z)
  : @M providers AgentRecord :=
  raise "worker crashed".

(** A search that is down and a store that is full, standing for
    overridden [web_search] and [store_research]. *)
Definition broken_search (q : string) : @M providers SearchResult :=
  raise "search unavailable".

Definition full_store (data : AgentRecord) : @M providers bool :=
  raise "disk full".

(** One well-formed evaluation result. *)
Definition scored : ScoringResult Q :=
  {| success := true;
     scorers_data :=
       Some [ {| name := "Faithfulness"; score := 9 # 10 |};
              {| name := "Answer Relevancy"; score := 8 # 10 |} ] |}.

End Scripted.

(** ** The parsing rule as the specification words it

    Split the text into lines, drop the lines that are empty once
    stripped, drop the lines whose stripped form starts with the heading
    marker, strip what remains and keep the first three. *)
Definition subtopics_by_the_words (text : string) : list string :=
  let lines := PyStr.split PyStr.LF text in
  let non_empty := List.filter (fun l => PyStr.truthy (PyStr.strip l)) lines in
  let no_heading :=
    List.filter (fun l => negb (PyStr.startswith "#" (PyStr.strip l)))
                non_empty in
  take 3 (map PyStr.strip no_heading).

(** A worker keeps the identity it was dispatched with when every record
    it returns carries the [agent_id] and the [topic] of the call. *)
Definition keeps_identity `{P : Providers}
    (worker : string -> Z -> M AgentRecord) : Prop :=
  forall t i s r s',
    worker t i s = (Return r, s') -> agent_id r = i /\ topic r = t.

(** The 0-based index in the subtopic list that an [agent_id] stands for. *)
Definition position_of (agent_id : Z) : nat := Z.to_nat (agent_id - 1).

(** The record [research_agent] builds on its normal path, from the search
    results and the provider's response. *)
Definition research_data (topic : string) (agent_id : Z)
    (search_results : SearchResult) (response : completion) : AgentRecord :=
  {| agent_id := agent_id;
     topic := topic;
     findings :=
       match first_choice response with
       | Some content => content
       | None => Str ("Analysis of " +:+ topic
                      +:+ " based on available research data.")
       end;
     record_sources := sources search_results;
     search_query := query search_results |}.

(** A record sits at its position when its [agent_id] is at least 1 and
    the subtopic at index [agent_id - 1] is its topic. *)
Definition at_its_position (subs : list string) (r : AgentRecord) : Prop :=
  1 <= agent_id r /\ subs !! position_of (agent_id r) = Some (topic r).

(** Loop invariant of the fan-out: with [done] the subtopics already
    dispatched, every collected record sits at its position in the whole
    list and the collected ids increase strictly and stay within the
    dispatched part. *)
Definition collected (all : list string) (done : nat)
    (records : list AgentRecord) : Prop :=
  Forall (at_its_position all) records
  /\ Forall (fun r => agent_id r <= Z.of_nat done) records
  /\ StronglySorted Z.lt (map agent_id records).

(** ** The entry point *)

Section Main.
Context `{P : Providers}.

Local Notation "x <- m ;; k" := (bind m (fun x => k))
  (at level 100, m at next level, right associativity).

(** [MultiAgentResearchSystem()]: [__init__] starts with an empty
    [research_database]. *)
Definition new_system (w : World) : system :=
  {| research_database := []; world := w |}.

(** The question [main] asks. *)
Definition main_question : string :=
  "What are the main challenges and opportunities for renewable energy adoption in developing countries?".

(** [evaluation["scores"]]: the failure dict has no such key, and the text
    of the [KeyError] is the quoted key. *)
Definition scores_item (evaluation : EvaluationSummary Score)
  : M (gmap string Score) :=
  match evaluation with
  | Summary _ scores _ => ret scores
  | EvaluationFailed _ => raise "'scores'"
  end.

(** [evaluation.get('error', 'Unknown error')] *)
Definition error_or_unknown (evaluation : EvaluationSummary Score) : string :=
  match evaluation with
  | EvaluationFailed error => error
  | Summary _ _ _ => "Unknown error"
  end.

(** [main], started in a world [w]: build the system, run the lead agent
    on the fixed question, evaluate the report, read the scores when the
    evaluation succeeded, and return the pair.  No handler surrounds any
    of this. *)
Definition main (w : World)
  : outcome (FinalReport * EvaluationSummary Score) * system :=
  (report <- lead_agent main_question ;;
   evaluation <- evaluate_research_quality report ;;
   _ <- (if evaluation_success evaluation
         then scores <- scores_item evaluation ;; ret tt
         else let message := error_or_unknown evaluation in ret tt) ;;
   ret (report, evaluation))
    (new_system w).

End Main.

(** ** A response without usable text, as the specification reads it

    No response object, no choice, or a first choice whose content is
    [None] or the empty text. *)
Definition no_usable_text (response : completion) : bool :=
  match first_choice response with
  | None => true
  | Some PyNone => true
  | Some (Str EmptyString) => true
  | Some (Str (String _ _)) => false
  end.

(** ** Vocabulary of the further properties *)

(** A record that carries sources: the records of the normal path do (the
    three of [web_search]), the degraded ones do not. *)
Definition has_sources (r : AgentRecord) : bool :=
  match record_sources r with
  | [] => false
  | _ :: _ => true
  end.

(** [c in s] for one character. *)
Fixpoint has_char (c : ascii) (s : string) : bool :=
  match s with
  | EmptyString => false
  | String a s' => Ascii.eqb a c || has_char c s'
  end.

(** A subtopic as the parser delivers it: not empty, unchanged by
    [strip], not a heading, on one line. *)
Definition clean_subtopic (t : string) : Prop :=
  PyStr.truthy t = true
  /\ PyStr.strip t = t
  /\ PyStr.startswith "#" t = false
  /\ has_char PyStr.LF t = false.

(** The providers of [P] with a counter of the language-model calls made
    so far added to the world. *)
Definition counting (P : Providers) : Providers :=
  {| World := (@World P * nat)%type;
     Score := @Score P;
     chat_completions_create := fun r wn =>
       let (o, w) := @chat_completions_create P r (fst wn) in
       (o, (w, S (snd wn)));
     run_evaluation := fun r wn =>
       let (o, w) := @run_evaluation P r (fst wn) in
       (o, (w, snd wn));
     repr := @repr P;
     example_error := @example_error P |}.

Definition calls {P : Providers} (s : @system (counting P)) : nat :=
  snd (world s).

(** * Properties *)

(** ** Strings and the mock search *)

Lemma contains_middle (a b c : string) : PyStr.contains b (a +:+ b +:+ c).
Proof. exists a, c. reflexivity. Qed.

Lemma contains_suffix (a b : string) : PyStr.contains b (a +:+ b).
Proof.
  exists a, EmptyString. f_equal.
  induction b as [|ch b IH]; [reflexivity|].
  change (String ch b = String ch (b +:+ EmptyString)). f_equal. exact IH.
Qed.

(** C10. [web_search] is a total function of the query alone: its result
    echoes the query, lists exactly three result strings, each of which
    contains the query, and names the three fixed sources. *)
Theorem web_search_mock (q : string) :
  query (web_search q) = q
  /\ results (web_search q) =
       [ "Research finding about " +:+ q +:+ " from source 1";
         "Additional information on " +:+ q +:+ " from source 2";
         "Expert analysis of " +:+ q +:+ " from source 3" ]
  /\ length (results (web_search q)) = 3%nat
  /\ Forall (PyStr.contains q) (results (web_search q))
  /\ sources (web_search q) = [ "source1.com"; "source2.org"; "source3.edu" ].
Proof.
  repeat split.
  repeat constructor; apply contains_middle.
Qed.

(** ** Parsing the decomposition *)

Lemma subtopic_lines_filter (lines : list string) :
  subtopic_lines lines =
  map PyStr.strip
    (List.filter (fun l => negb (PyStr.startswith "#" (PyStr.strip l)))
       (List.filter (fun l => PyStr.truthy (PyStr.strip l)) lines)).
Proof.
  induction lines as [|l lines IH]; [reflexivity|].
  cbn [subtopic_lines List.filter].
  destruct (PyStr.truthy (PyStr.strip l)) eqn:Hne; cbn [andb].
  - cbn [List.filter].
    destruct (PyStr.startswith "#" (PyStr.strip l)) eqn:Hh; cbn [negb].
    + exact IH.
    + cbn [map]. now rewrite IH.
  - exact IH.
Qed.

Lemma parse_subtopics_length (text : string) :
  (length (parse_subtopics text) <= 3)%nat.
Proof. unfold parse_subtopics. rewrite length_take. lia. Qed.

(** C5. The subtopic list derived from a decomposition text is the one the
    specification describes: lines, minus those empty after stripping,
    minus those that start with the heading marker after stripping,
    stripped, first three. *)
Theorem parse_subtopics_by_the_words (text : string) :
  parse_subtopics text = subtopics_by_the_words text.
Proof.
  unfold parse_subtopics, subtopics_by_the_words.
  now rewrite subtopic_lines_filter.
Qed.

(** ** Running the monad *)

Section Running.
Context `{P : Providers}.

Lemma bind_Return {A B} (m : M A) (k : A -> M B) s a s' :
  m s = (Return a, s') -> bind m k s = k a s'.
Proof. unfold bind. now intros ->. Qed.

Lemma bind_Raise {A B} (m : M A) (k : A -> M B) s e s' :
  m s = (Raise e, s') -> bind m k s = (Raise e, s').
Proof. unfold bind. now intros ->. Qed.

Lemma try_except_Return {A} (body : M A) handler s a s' :
  body s = (Return a, s') -> try_except body handler s = (Return a, s').
Proof. unfold try_except. now intros ->. Qed.

Lemma try_except_Raise {A} (body : M A) handler s e s' :
  body s = (Raise e, s') -> try_except body handler s = handler e s'.
Proof. unfold try_except. now intros ->. Qed.

(** A [try] whose handler only returns a value cannot raise. *)
Lemma try_except_total {A} (body : M A) (fallback : exn -> A) s :
  exists a s', try_except body (fun e => ret (fallback e)) s = (Return a, s').
Proof.
  unfold try_except, ret. destruct (body s) as [[a|e] s']; eauto.
Qed.

Lemma create_Return r s resp w :
  chat_completions_create r (world s) = (Return resp, w) ->
  create r s =
  (Return resp, {| research_database := research_database s; world := w |}).
Proof. unfold create. now intros ->. Qed.

Lemma create_Raise r s e w :
  chat_completions_create r (world s) = (Raise e, w) ->
  create r s =
  (Raise e, {| research_database := research_database s; world := w |}).
Proof. unfold create. now intros ->. Qed.

Lemma create_database r s o s' :
  create r s = (o, s') -> research_database s' = research_database s.
Proof.
  unfold create. destruct (chat_completions_create r (world s)).
  now intros [= _ <-].
Qed.

End Running.

(** ** Worker agent *)

Section Worker.
Context `{P : Providers}.
Variable search : string -> M SearchResult.
Variable store : AgentRecord -> M bool.

Lemma research_agent_with_total topic agent_id s :
  exists r s',
    research_agent_with search store topic agent_id s = (Return r, s').
Proof. apply try_except_total. Qed.

Lemma research_agent_with_identity : keeps_identity (research_agent_with search store).
Proof.
  intros t i s r s'. unfold research_agent_with, try_except, bind, ret.
  destruct (search _ s) as [[sr|e] s1]; [|now intros [= <- _]].
  destruct (create _ s1) as [[resp|e] s2]; [|now intros [= <- _]].
  destruct (store _ s2) as [[b|e] s3]; now intros [= <- _].
Qed.

Lemma search_failure topic agent_id s e s1 :
  search (topic +:+ " research analysis") s = (Raise e, s1) ->
  research_agent_with search store topic agent_id s
  = (Return (degraded_record topic agent_id e), s1).
Proof.
  intros H. unfold research_agent_with.
  erewrite try_except_Raise; [reflexivity|].
  now apply bind_Raise.
Qed.

Lemma model_failure topic agent_id s sr s1 e s2 :
  search (topic +:+ " research analysis") s = (Return sr, s1) ->
  create (research_request topic sr) s1 = (Raise e, s2) ->
  research_agent_with search store topic agent_id s
  = (Return (degraded_record topic agent_id e), s2).
Proof.
  intros H1 H2. unfold research_agent_with.
  erewrite try_except_Raise; [reflexivity|].
  erewrite bind_Return by exact H1. now apply bind_Raise.
Qed.

Lemma store_failure topic agent_id s sr s1 resp s2 e s3 :
  search (topic +:+ " research analysis") s = (Return sr, s1) ->
  create (research_request topic sr) s1 = (Return resp, s2) ->
  store (research_data topic agent_id sr resp) s2 = (Raise e, s3) ->
  research_agent_with search store topic agent_id s
  = (Return (degraded_record topic agent_id e), s3).
Proof.
  intros H1 H2 H3. unfold research_agent_with.
  erewrite try_except_Raise; [reflexivity|].
  erewrite bind_Return by exact H1.
  erewrite bind_Return by exact H2.
  now apply bind_Raise.
Qed.

Lemma research_success topic agent_id s sr s1 resp s2 b s3 :
  search (topic +:+ " research analysis") s = (Return sr, s1) ->
  create (research_request topic sr) s1 = (Return resp, s2) ->
  store (research_data topic agent_id sr resp) s2 = (Return b, s3) ->
  research_agent_with search store topic agent_id s
  = (Return (research_data topic agent_id sr resp), s3).
Proof.
  intros H1 H2 H3. unfold research_agent_with.
  erewrite try_except_Return; [reflexivity|].
  erewrite bind_Return by exact H1.
  erewrite bind_Return by exact H2.
  erewrite bind_Return by exact H3.
  reflexivity.
Qed.

(** C3. [research_agent] never raises, whatever its search, its
    language-model call and its store do.  The record it returns carries
    the [agent_id] and [topic] it was called with; when the search, the
    language-model call or the store raises, that record is the degraded
    one: findings ["Research failed: "] followed by the error text, no
    sources, and the topic as search query. *)
Theorem research_agent_never_raises subject id s :
  (exists r s',
      research_agent_with search store subject id s = (Return r, s')
      /\ agent_id r = id /\ topic r = subject)
  /\ (forall e s1,
        search (subject +:+ " research analysis") s = (Raise e, s1) ->
        research_agent_with search store subject id s
        = (Return {| agent_id := id; topic := subject;
                     findings := "Research failed: " +:+ e;
                     record_sources := []; search_query := subject |}, s1))
  /\ (forall sr s1 e s2,
        search (subject +:+ " research analysis") s = (Return sr, s1) ->
        create (research_request subject sr) s1 = (Raise e, s2) ->
        research_agent_with search store subject id s
        = (Return {| agent_id := id; topic := subject;
                     findings := "Research failed: " +:+ e;
                     record_sources := []; search_query := subject |}, s2))
  /\ (forall sr s1 resp s2 e s3,
        search (subject +:+ " research analysis") s = (Return sr, s1) ->
        create (research_request subject sr) s1 = (Return resp, s2) ->
        store (research_data subject id sr resp) s2 = (Raise e, s3) ->
        research_agent_with search store subject id s
        = (Return {| agent_id := id; topic := subject;
                     findings := "Research failed: " +:+ e;
                     record_sources := []; search_query := subject |}, s3)).
Proof.
  split; [|split; [|split]].
  - destruct (research_agent_with_total subject id s) as (r & s' & Hr).
    exists r, s'. split; [exact Hr|].
    exact (research_agent_with_identity _ _ _ _ _ Hr).
  - intros e s1 H. now apply search_failure.
  - intros sr s1 e s2 H1 H2. now apply model_failure with sr s1.
  - intros sr s1 resp s2 e s3 H1 H2 H3.
    now apply store_failure with sr s1 resp s2.
Qed.

End Worker.

(** ** Findings store *)

Section Store.
Context `{P : Providers}.

Lemma store_research_appends data s :
  store_research data s
  = (Return true, {| research_database := research_database s ++ [data];
                     world := world s |}).
Proof. reflexivity. Qed.

(** C9, as amended.  A worker run whose language-model call returns
    appends the record it returns to [research_database], which grows by
    exactly that one entry.  A run whose language-model call raises
    returns the degraded record and leaves [research_database] as it
    was. *)
Theorem store_grows_on_success_only subject id s :
  let found := web_search (subject +:+ " research analysis") in
  (forall resp w,
      chat_completions_create (research_request subject found) (world s)
      = (Return resp, w) ->
      research_agent subject id s
      = (Return (research_data subject id found resp),
         {| research_database :=
              research_database s ++ [research_data subject id found resp];
            world := w |}))
  /\ (forall e w,
        chat_completions_create (research_request subject found) (world s)
        = (Raise e, w) ->
        research_agent subject id s
        = (Return (degraded_record subject id e),
           {| research_database := research_database s; world := w |})).
Proof.
  intros found. split.
  - intros resp w H. unfold research_agent.
    eapply research_success.
    + reflexivity.
    + apply create_Return, H.
    + reflexivity.
  - intros e w H. unfold research_agent.
    eapply model_failure.
    + reflexivity.
    + apply create_Raise, H.
Qed.

End Store.

(** ** Lead agent *)

Section Lead.
Context `{P : Providers}.
Variable worker : string -> Z -> M AgentRecord.

(** *** Decomposition *)

(** The subtopics chosen for a response of the planning call. *)
Lemma decompose_Return q s resp w :
  chat_completions_create (planning_request q) (world s) = (Return resp, w) ->
  decompose q s
  = (match first_choice resp with
     | Some (Str text) => Return match parse_subtopics text with
                                 | [] => default_subtopics
                                 | parsed => parsed
                                 end
     | Some PyNone => Raise "'NoneType' object has no attribute 'split'"
     | None => Return default_subtopics
     end,
     {| research_database := research_database s; world := w |}).
Proof.
  intros H. unfold decompose.
  erewrite bind_Return by (apply create_Return, H).
  unfold bind, ret, raise.
  destruct (first_choice resp) as [[text|]|]; [|reflexivity|reflexivity].
  now destruct (parse_subtopics text).
Qed.

Lemma decompose_Raise q s e w :
  chat_completions_create (planning_request q) (world s) = (Raise e, w) ->
  decompose q s
  = (Raise e, {| research_database := research_database s; world := w |}).
Proof.
  intros H. unfold decompose. apply bind_Raise. apply create_Raise, H.
Qed.

Lemma decompose_length q s subs s' :
  decompose q s = (Return subs, s') ->
  (1 <= length subs <= 3)%nat.
Proof.
  destruct (chat_completions_create (planning_request q) (world s))
    as [[resp|e] w] eqn:H.
  - rewrite (decompose_Return _ _ _ _ H).
    destruct (first_choice resp) as [[text|]|];
      [|discriminate|intros [= <- _]; simpl; lia].
    intros [= <- _].
    pose proof (parse_subtopics_length text) as Hlen.
    destruct (parse_subtopics text); simpl in *; lia.
  - rewrite (decompose_Raise _ _ _ _ H). discriminate.
Qed.

(** *** Fan-out *)

Lemma delegate_cons i subtopic rest acc s :
  delegate worker i (subtopic :: rest) acc s
  = match worker subtopic (Z.of_nat i + 1) s with
    | (Return result, s1) => delegate worker (S i) rest (acc ++ [result]) s1
    | (Raise _, s1) => delegate worker (S i) rest acc s1
    end.
Proof.
  simpl. unfold bind, try_except, ret.
  now destruct (worker subtopic (Z.of_nat i + 1) s) as [[r|e] s1].
Qed.

(** The loop never raises and collects at most one record per subtopic. *)
Lemma delegate_total subs : forall i acc s,
  exists records s',
    delegate worker i subs acc s = (Return records, s')
    /\ (length records <= length acc + length subs)%nat.
Proof.
  induction subs as [|t rest IH]; intros i acc s.
  - exists acc, s. split; [reflexivity | simpl; lia].
  - rewrite delegate_cons.
    destruct (worker t (Z.of_nat i + 1) s) as [[r|e] s1].
    + destruct (IH (S i) (acc ++ [r]) s1) as (records & s' & Hrun & Hlen).
      exists records, s'. split; [exact Hrun|].
      rewrite length_app in Hlen. simpl in *. lia.
    + destruct (IH (S i) acc s1) as (records & s' & Hrun & Hlen).
      exists records, s'. split; [exact Hrun | simpl; lia].
Qed.

Lemma collected_skip all done records :
  collected all done records -> collected all (S done) records.
Proof.
  intros (Hpos & Hid & Hsort). repeat split; [exact Hpos| |exact Hsort].
  eapply Forall_impl; [exact Hid|]. simpl. intros. lia.
Qed.

Lemma collected_snoc all done records r :
  collected all done records ->
  agent_id r = Z.of_nat done + 1 ->
  all !! done = Some (topic r) ->
  collected all (S done) (records ++ [r]).
Proof.
  intros (Hpos & Hid & Hsort) Hr Ht. repeat split.
  - apply Forall_app. split; [exact Hpos|].
    constructor; [|constructor]. split; [lia|].
    unfold position_of. rewrite Hr.
    replace (Z.to_nat (Z.of_nat done + 1 - 1)) with done by lia.
    exact Ht.
  - apply Forall_app. split.
    + eapply Forall_impl; [exact Hid|]. simpl. intros. lia.
    + constructor; [lia | constructor].
  - rewrite map_app. simpl.
    clear Hpos. induction records as [|x xs IHxs]; simpl.
    + repeat constructor.
    + apply StronglySorted_inv in Hsort as [Hxs Hx].
      apply Forall_cons in Hid as [Hxid Hxsid].
      constructor; [now apply IHxs|].
      apply Forall_app. split; [exact Hx|].
      constructor; [lia | constructor].
Qed.

Lemma delegate_collected (Hworker : keeps_identity worker) subs :
  forall before acc s records s',
    collected (before ++ subs) (length before) acc ->
    delegate worker (length before) subs acc s = (Return records, s') ->
    collected (before ++ subs) (length before + length subs) records.
Proof.
  induction subs as [|t rest IH]; intros before acc s records s' Hacc Hrun.
  - simpl in Hrun. injection Hrun as <- _.
    simpl. now rewrite Nat.add_0_r.
  - rewrite delegate_cons in Hrun.
    replace (before ++ t :: rest) with ((before ++ [t]) ++ rest) in *
      by now rewrite <- app_assoc.
    replace (length before + length (t :: rest))%nat
      with (length (before ++ [t]) + length rest)%nat
      by (rewrite length_app; simpl; lia).
    assert (HS : S (length before) = length (before ++ [t]))
      by (rewrite length_app; simpl; lia).
    rewrite HS in Hrun.
    destruct (worker t (Z.of_nat (length before) + 1) s)
      as [[r|e] s1] eqn:Hw.
    + destruct (Hworker _ _ _ _ _ Hw) as [Hid Htopic].
      eapply IH; [|exact Hrun]. rewrite <- HS.
      apply collected_snoc; [exact Hacc | exact Hid |].
      rewrite Htopic, lookup_app_l by (rewrite length_app; simpl; lia).
      now rewrite lookup_app_r, Nat.sub_diag by lia.
    + eapply IH; [|exact Hrun]. rewrite <- HS.
      now apply collected_skip.
Qed.

(** *** The run as a whole *)

Lemma lead_agent_try_Return q s subs s0 :
  decompose q s = (Return subs, s0) ->
  lead_agent_try worker q s = lead_agent_from worker q subs s0.
Proof. intros H. unfold lead_agent_try. now apply bind_Return. Qed.

Lemma lead_agent_try_Raise q s e s0 :
  decompose q s = (Raise e, s0) ->
  lead_agent_try worker q s = (Raise e, s0).
Proof. intros H. unfold lead_agent_try. now apply bind_Raise. Qed.

(** The synthesis step on at least one record: the join, then the call. *)
Lemma synthesize_join_Raise q r rs s e :
  join_items PyStr.newline (map findings (r :: rs)) = Raise e ->
  synthesize q (r :: rs) s = (Raise e, s).
Proof.
  intros H. unfold synthesize. apply bind_Raise. unfold lift. now rewrite H.
Qed.

Lemma synthesize_call q r rs s all_findings :
  join_items PyStr.newline (map findings (r :: rs)) = Return all_findings ->
  synthesize q (r :: rs) s
  = match chat_completions_create (synthesis_request q all_findings) (world s)
    with
    | (Return resp, w) =>
        (Return match first_choice resp with
                | Some content => content
                | None => Str (synthesis_template q (length (r :: rs)))
                end,
         {| research_database := research_database s; world := w |})
    | (Raise e, w) =>
        (Raise e, {| research_database := research_database s; world := w |})
    end.
Proof.
  intros H. unfold synthesize.
  erewrite bind_Return by (unfold lift; now rewrite H).
  unfold bind, ret, create.
  now destruct (chat_completions_create _ (world s)) as [[resp|e] w].
Qed.

(** What a completed [try] block reports. *)
Lemma lead_agent_from_shape q subs s rep s' :
  lead_agent_from worker q subs s = (Return rep, s') ->
  research_question rep = q
  /\ subtopics rep = subs
  /\ total_agents_used rep = length (individual_research rep)
  /\ exists s1,
       delegate worker 0 subs [] s = (Return (individual_research rep), s1).
Proof.
  unfold lead_agent_from.
  destruct (delegate_total subs 0%nat [] s) as (records & s1 & Hrun & _).
  erewrite bind_Return by exact Hrun.
  unfold bind, ret.
  destruct (synthesize q records s1) as [[txt|e] s2]; [|discriminate].
  intros [= <- _]. simpl. eauto.
Qed.

(** C1. Whatever the worker and the providers do, [lead_agent] returns a
    report whose [individual_research] has [total_agents_used] entries,
    no more than there are subtopics, of which there are at most 3. *)
Theorem lead_agent_report_counts q s :
  exists rep s',
    lead_agent_with worker q s = (Return rep, s')
    /\ length (individual_research rep) = total_agents_used rep
    /\ (total_agents_used rep <= length (subtopics rep) <= 3)%nat.
Proof.
  unfold lead_agent_with, try_except.
  destruct (lead_agent_try worker q s) as [[rep|e] s'] eqn:Htry.
  - exists rep, s'. split; [reflexivity|].
    destruct (decompose q s) as [[subs|e] s0] eqn:Hd.
    + rewrite (lead_agent_try_Return _ _ _ _ Hd) in Htry.
      destruct (lead_agent_from_shape _ _ _ _ _ Htry)
        as (_ & Hsubs & Htotal & s1 & Hrun).
      destruct (delegate_total subs 0%nat [] s0)
        as (records & s1' & Hrun' & Hlen).
      rewrite Hrun in Hrun'. injection Hrun' as <- _.
      pose proof (decompose_length _ _ _ _ Hd).
      rewrite Hsubs, Htotal. simpl in Hlen. lia.
    + rewrite (lead_agent_try_Raise _ _ _ _ Hd) in Htry. discriminate.
  - exists (minimal_report q e), s'. unfold ret. simpl.
    repeat split; lia.
Qed.

(** C2. [lead_agent] never raises.  When an exception escapes its [try]
    block it returns the minimal report: subtopics [["Error occurred"]],
    no research, a synthesis that contains the error text, zero agents.
    A planning call that raises and a synthesis call that raises are such
    cases (the fan-out itself never raises, see [delegate_total]), and so
    are a planning content that is [None] and a finding that is [None]. *)
Theorem lead_agent_never_raises q s :
  (exists rep s', lead_agent_with worker q s = (Return rep, s'))
  /\ (forall e s1,
        lead_agent_try worker q s = (Raise e, s1) ->
        lead_agent_with worker q s
        = (Return {| research_question := q;
                     subtopics := [ "Error occurred" ];
                     individual_research := [];
                     final_synthesis := "Research failed due to error: " +:+ e;
                     total_agents_used := 0 |}, s1)
        /\ PyStr.contains e ("Research failed due to error: " +:+ e))
  /\ (forall e w,
        chat_completions_create (planning_request q) (world s) = (Raise e, w) ->
        lead_agent_try worker q s
        = (Raise e, {| research_database := research_database s;
                       world := w |}))
  /\ (forall subs s0 records s1 all_findings e w,
        decompose q s = (Return subs, s0) ->
        delegate worker 0 subs [] s0 = (Return records, s1) ->
        records <> [] ->
        join_items PyStr.newline (map findings records) = Return all_findings ->
        chat_completions_create (synthesis_request q all_findings) (world s1)
        = (Raise e, w) ->
        lead_agent_try worker q s
        = (Raise e, {| research_database := research_database s1;
                       world := w |}))
  /\ (forall others w,
        chat_completions_create (planning_request q) (world s)
        = (Return (Choices (PyNone :: others)), w) ->
        lead_agent_try worker q s
        = (Raise "'NoneType' object has no attribute 'split'",
           {| research_database := research_database s; world := w |}))
  /\ (forall subs s0 records s1 e,
        decompose q s = (Return subs, s0) ->
        delegate worker 0 subs [] s0 = (Return records, s1) ->
        records <> [] ->
        join_items PyStr.newline (map findings records) = Raise e ->
        lead_agent_try worker q s = (Raise e, s1)).
Proof.
  split; [|split; [|split; [|split; [|split]]]].
  - apply try_except_total.
  - intros e s1 H. split; [|apply contains_suffix].
    unfold lead_agent_with. now rewrite (try_except_Raise _ _ _ _ _ H).
  - intros e w H. apply lead_agent_try_Raise. now apply decompose_Raise.
  - intros subs s0 records s1 all_findings e w Hd Hrun Hne Hjoin Hcall.
    rewrite (lead_agent_try_Return _ _ _ _ Hd). unfold lead_agent_from.
    erewrite bind_Return by exact Hrun.
    destruct records as [|r rs]; [contradiction|].
    apply bind_Raise. rewrite (synthesize_call _ _ _ _ _ Hjoin).
    now rewrite Hcall.
  - intros others w H. apply lead_agent_try_Raise.
    now rewrite (decompose_Return _ _ _ _ H).
  - intros subs s0 records s1 e Hd Hrun Hne Hjoin.
    rewrite (lead_agent_try_Return _ _ _ _ Hd). unfold lead_agent_from.
    erewrite bind_Return by exact Hrun.
    destruct records as [|r rs]; [contradiction|].
    apply bind_Raise. now apply synthesize_join_Raise.
Qed.

(** C4. When the planning call returns no response object, an empty list
    of choices, or a text from which no subtopic is parsed, the
    subtopics are the three default ones: decomposition returns them,
    the fan-out is run on them, and they are the subtopics of every
    report that is not the minimal one. *)
Theorem decomposition_falls_back q s resp w :
  chat_completions_create (planning_request q) (world s) = (Return resp, w) ->
  resp = NoResponse
  \/ resp = Choices []
  \/ (exists text others,
        resp = Choices (Str text :: others) /\ parse_subtopics text = []) ->
  let fallback :=
    [ "Technical challenges"; "Economic factors"; "Policy considerations" ] in
  let s0 := {| research_database := research_database s; world := w |} in
  decompose q s = (Return fallback, s0)
  /\ lead_agent_try worker q s = lead_agent_from worker q fallback s0
  /\ (forall rep s',
        lead_agent_with worker q s = (Return rep, s') ->
        subtopics rep = fallback \/ exists e, rep = minimal_report q e).
Proof.
  intros Hcall Hresp fallback s0.
  assert (Hd : decompose q s = (Return fallback, s0)).
  { rewrite (decompose_Return _ _ _ _ Hcall).
    destruct Hresp as [-> | [-> | (text & others & -> & Hparse)]];
      simpl; [reflexivity | reflexivity | now rewrite Hparse]. }
  split; [exact Hd|]. split; [now apply lead_agent_try_Return|].
  intros rep s'. unfold lead_agent_with, try_except.
  rewrite (lead_agent_try_Return _ _ _ _ Hd).
  destruct (lead_agent_from worker q fallback s0) as [[rep0|e] s1] eqn:Hfrom.
  - intros [= <- _]. left.
    now destruct (lead_agent_from_shape _ _ _ _ _ Hfrom) as (_ & ? & _).
  - intros [= <- _]. right. now exists e.
Qed.

(** C6, as amended.  In the synthesis step, with at least one record
    collected and the findings joined, a synthesis call that returns no
    response object or an empty list of choices gives as
    [final_synthesis] the template naming the question and the number of
    records, and a response with a first choice gives that choice's
    content as it is; with no record collected, [final_synthesis] is the
    fixed failure string and [total_agents_used] is 0. *)
Theorem synthesis_fallbacks q s subs s0 records s1 :
  decompose q s = (Return subs, s0) ->
  delegate worker 0 subs [] s0 = (Return records, s1) ->
  (records <> [] ->
   forall all_findings resp w,
     join_items PyStr.newline (map findings records) = Return all_findings ->
     chat_completions_create (synthesis_request q all_findings) (world s1)
     = (Return resp, w) ->
     (first_choice resp = None ->
      lead_agent_with worker q s
      = (Return {| research_question := q;
                   subtopics := subs;
                   individual_research := records;
                   final_synthesis :=
                     "Synthesis of research on: " +:+ q
                       +:+ PyStr.newline +:+ PyStr.newline
                       +:+ "Based on findings from "
                       +:+ PyStr.of_nat (length records)
                       +:+ " research agents.";
                   total_agents_used := length records |},
         {| research_database := research_database s1; world := w |}))
     /\ (forall content,
          first_choice resp = Some content ->
          lead_agent_with worker q s
          = (Return {| research_question := q;
                       subtopics := subs;
                       individual_research := records;
                       final_synthesis := content;
                       total_agents_used := length records |},
             {| research_database := research_database s1; world := w |})))
  /\ (records = [] ->
      lead_agent_with worker q s
      = (Return {| research_question := q;
                   subtopics := subs;
                   individual_research := [];
                   final_synthesis :=
                     "Research could not be completed due to technical issues.";
                   total_agents_used := 0 |}, s1)).
Proof.
  intros Hd Hrun. split.
  - intros Hne all_findings resp w Hjoin Hcall.
    destruct records as [|r rs]; [contradiction|].
    assert (Hrep : lead_agent_with worker q s
      = (Return {| research_question := q;
                   subtopics := subs;
                   individual_research := r :: rs;
                   final_synthesis :=
                     match first_choice resp with
                     | Some content => content
                     | None => Str (synthesis_template q (length (r :: rs)))
                     end;
                   total_agents_used := length (r :: rs) |},
         {| research_database := research_database s1; world := w |})).
    { unfold lead_agent_with.
      erewrite try_except_Return; [reflexivity|].
      rewrite (lead_agent_try_Return _ _ _ _ Hd). unfold lead_agent_from.
      erewrite bind_Return by exact Hrun.
      erewrite bind_Return; [reflexivity|].
      rewrite (synthesize_call _ _ _ _ _ Hjoin). now rewrite Hcall. }
    split.
    + intros Hnone. now rewrite Hnone in Hrep.
    + intros content Hsome. now rewrite Hsome in Hrep.
  - intros ->.
    unfold lead_agent_with.
    erewrite try_except_Return; [reflexivity|].
    rewrite (lead_agent_try_Return _ _ _ _ Hd). unfold lead_agent_from.
    erewrite bind_Return by exact Hrun. reflexivity.
Qed.

(** The records of a report sit at their positions, in dispatch order. *)
Lemma report_positions (Hworker : keeps_identity worker) q s rep s' :
  lead_agent_with worker q s = (Return rep, s') ->
  Forall (at_its_position (subtopics rep)) (individual_research rep)
  /\ StronglySorted Z.lt (map agent_id (individual_research rep)).
Proof.
  unfold lead_agent_with, try_except.
  destruct (lead_agent_try worker q s) as [[rep0|e] s0] eqn:Htry.
  - intros [= <- _].
    destruct (decompose q s) as [[subs|e] s1] eqn:Hd.
    + rewrite (lead_agent_try_Return _ _ _ _ Hd) in Htry.
      destruct (lead_agent_from_shape _ _ _ _ _ Htry)
        as (_ & Hsubs & _ & s2 & Hrun).
      assert (Hstart : collected ([] ++ subs) (length (@nil string)) [])
        by (repeat split; constructor).
      destruct (delegate_collected Hworker subs [] [] s1 _ _ Hstart Hrun)
        as (Hpos & _ & Hsort).
      rewrite Hsubs. split; [exact Hpos | exact Hsort].
    + rewrite (lead_agent_try_Raise _ _ _ _ Hd) in Htry. discriminate.
  - intros [= <- _]. simpl. split; constructor.
Qed.

(** C8. Every record of the returned [individual_research] carries the
    1-based position its subtopic had in the subtopic list when it was
    dispatched, also after an earlier worker call was skipped (a worker
    that raised); the records keep the dispatch order, so their ids
    increase strictly. *)
Theorem agent_ids_are_positions (Hworker : keeps_identity worker)
    q s rep s' :
  lead_agent_with worker q s = (Return rep, s') ->
  Forall (fun r => 1 <= agent_id r
                   /\ subtopics rep !! Z.to_nat (agent_id r - 1)
                      = Some (topic r))
         (individual_research rep)
  /\ StronglySorted Z.lt (map agent_id (individual_research rep)).
Proof. apply report_positions, Hworker. Qed.

End Lead.

(** The class's own worker keeps the identity it is given, so the
    positions hold for [lead_agent] as it stands. *)
Lemma lead_agent_positions `{P : Providers} q s rep s' :
  lead_agent q s = (Return rep, s') ->
  Forall (at_its_position (subtopics rep)) (individual_research rep)
  /\ StronglySorted Z.lt (map agent_id (individual_research rep)).
Proof.
  apply report_positions. apply research_agent_with_identity.
Qed.

(** ** Quality evaluator *)

Section Evaluator.
Context `{P : Providers}.

Lemma evaluate_Return r s results w :
  run_evaluation r (world s) = (Return results, w) ->
  evaluate r s
  = (Return results, {| research_database := research_database s; world := w |}).
Proof. unfold evaluate. now intros ->. Qed.

Lemma evaluate_Raise r s e w :
  run_evaluation r (world s) = (Raise e, w) ->
  evaluate r s
  = (Raise e, {| research_database := research_database s; world := w |}).
Proof. unfold evaluate. now intros ->. Qed.

(** The dict comprehension, entry by entry. *)
Lemma scores_fold_lookup (data : list (ScorerData Score)) :
  forall (m : gmap string Score) n x,
    foldl (fun m scorer => <[name scorer := score scorer]> m) m data !! n
    = Some x ->
    m !! n = Some x
    \/ exists d, d ∈ data /\ name d = n /\ score d = x.
Proof.
  induction data as [|d data IH]; intros m n x H; simpl in H.
  - now left.
  - destruct (IH _ _ _ H) as [Hm | (d' & Hin & Hn & Hx)].
    + destruct (decide (name d = n)) as [Heq|Hne].
      * rewrite Heq, lookup_insert_eq in Hm. injection Hm as Hm.
        right. exists d. split; [left | easy].
      * rewrite lookup_insert_ne in Hm by exact Hne. now left.
    + right. exists d'. split; [now right | easy].
Qed.

Lemma scores_fold_keeps (data : list (ScorerData Score)) :
  forall (m : gmap string Score) n,
    is_Some (m !! n) ->
    is_Some
      (foldl (fun m scorer => <[name scorer := score scorer]> m) m data !! n).
Proof.
  induction data as [|d data IH]; intros m n H; simpl; [exact H|].
  apply IH. destruct (decide (name d = n)) as [<-|Hne].
  - rewrite lookup_insert_eq. eauto.
  - now rewrite lookup_insert_ne.
Qed.

(** Every scorer's name is a key of the scores, and every score comes
    from a scorer of that name. *)
Lemma scores_of_mapping (data : list (ScorerData Score)) :
  (forall d, d ∈ data -> is_Some (scores_of data !! name d))
  /\ (forall n x, scores_of data !! n = Some x ->
        exists d, d ∈ data /\ name d = n /\ score d = x).
Proof.
  unfold scores_of. split.
  - generalize (∅ : gmap string Score).
    induction data as [|d0 data IH]; intros m d Hin.
    + inversion Hin.
    + simpl. apply elem_of_cons in Hin as [->|Hin].
      * apply scores_fold_keeps. rewrite lookup_insert_eq. eauto.
      * now apply IH.
  - intros n x H.
    destruct (scores_fold_lookup _ _ _ _ H) as [Hempty|Hd]; [|exact Hd].
    now rewrite lookup_empty in Hempty.
Qed.

(** Once the example is accepted, the call is the guarded part. *)
Lemma evaluate_research_quality_accepted report s :
  example_error (example_of report) = None ->
  evaluate_research_quality report s
  = try_except
      (bind (evaluate (evaluation_request report)) (fun results =>
       bind (first_result results) (fun first =>
       bind (iterate (scorers_data first)) (fun data =>
       ret (Summary (success first) (scores_of data) data)))))
      (fun e => ret (EvaluationFailed e)) s.
Proof.
  intros H. unfold evaluate_research_quality, new_example. rewrite H.
  reflexivity.
Qed.

Lemma evaluate_research_quality_rejected report s e :
  example_error (example_of report) = Some e ->
  evaluate_research_quality report s = (Raise e, s).
Proof.
  intros H. unfold evaluate_research_quality, new_example. now rewrite H.
Qed.

(** C7, as amended.  When [Example] accepts the fields taken from the
    report, [evaluate_research_quality] does not raise: a service that
    raises, an empty result list or a first result without scorer data
    gives the failure dict with the error text, and otherwise the
    summary holds the first result's success flag, the name-to-score
    mapping of its scorer data, and that scorer data.  When [Example]
    rejects them, its error is raised before the [try] and reaches the
    caller. *)
Theorem evaluation_failures_are_reported report s :
  let request := evaluation_request report in
  let after w := {| research_database := research_database s; world := w |} in
  (forall e,
      example_error (example_of report) = Some e ->
      evaluate_research_quality report s = (Raise e, s))
  /\ (example_error (example_of report) = None ->
      (exists summary s',
          evaluate_research_quality report s = (Return summary, s'))
      /\ (forall e w,
            run_evaluation request (world s) = (Raise e, w) ->
            evaluate_research_quality report s
            = (Return (EvaluationFailed e), after w))
      /\ (forall w,
            run_evaluation request (world s) = (Return [], w) ->
            evaluate_research_quality report s
            = (Return (EvaluationFailed "list index out of range"), after w))
      /\ (forall first others w,
            run_evaluation request (world s) = (Return (first :: others), w) ->
            scorers_data first = None ->
            evaluate_research_quality report s
            = (Return (EvaluationFailed "'NoneType' object is not iterable"),
               after w))
      /\ (forall first others data w,
            run_evaluation request (world s) = (Return (first :: others), w) ->
            scorers_data first = Some data ->
            evaluate_research_quality report s
            = (Return (Summary (success first) (scores_of data) data), after w)
            /\ (forall d, d ∈ data -> is_Some (scores_of data !! name d))
            /\ (forall n x, scores_of data !! n = Some x ->
                  exists d, d ∈ data /\ name d = n /\ score d = x))).
Proof.
  intros request after. split.
  { intros e H. now apply evaluate_research_quality_rejected. }
  intros Hok. rewrite (evaluate_research_quality_accepted _ _ Hok).
  split; [apply try_except_total|].
  fold request. split; [|split; [|split]].
  - intros e w H.
    erewrite try_except_Raise; [reflexivity|].
    apply bind_Raise. now apply evaluate_Raise.
  - intros w H.
    erewrite try_except_Raise; [reflexivity|].
    erewrite bind_Return by (apply evaluate_Return, H). reflexivity.
  - intros first others w H Hdata.
    erewrite try_except_Raise; [reflexivity|].
    erewrite bind_Return by (apply evaluate_Return, H).
    simpl. unfold bind, ret. now rewrite Hdata.
  - intros first others data w H Hdata. split; [|apply scores_of_mapping].
    erewrite try_except_Return; [reflexivity|].
    erewrite bind_Return by (apply evaluate_Return, H).
    simpl. unfold bind, ret. now rewrite Hdata.
Qed.

End Evaluator.

(** ** The properties on concrete runs *)

Example parse_drops_blank_and_heading_lines :
  parse_subtopics
    ("# Plan" +:+ PyStr.newline +:+ "  1. Costs " +:+ PyStr.newline
     +:+ PyStr.newline +:+ "2. Grid" +:+ PyStr.newline +:+ "3. Policy"
     +:+ PyStr.newline +:+ "4. Extra")
  = [ "1. Costs"; "2. Grid"; "3. Policy" ].
Proof. reflexivity. Qed.

Example parse_of_headings_only :
  parse_subtopics ("# Plan" +:+ PyStr.newline +:+ "   ") = [].
Proof. reflexivity. Qed.

Lemma flaky_worker_keeps_identity : keeps_identity Scripted.flaky_worker.
Proof.
  intros t i s r s'. unfold Scripted.flaky_worker.
  destruct (i =? 2); [discriminate|].
  now intros [= <- _].
Qed.

(** A planning call that raises gives the minimal report. *)
Lemma lead_agent_never_raises_witness :
  lead_agent (P := Scripted.providers) "Q?"
    (Scripted.fresh [Raise "boom"] (Raise "down"))
  = (Return {| research_question := "Q?";
               subtopics := [ "Error occurred" ];
               individual_research := [];
               final_synthesis := "Research failed due to error: boom";
               total_agents_used := 0 |},
     Scripted.fresh [] (Raise "down"))
  /\ PyStr.contains "boom" "Research failed due to error: boom".
Proof.
  destruct (lead_agent_never_raises (P := Scripted.providers) research_agent
              "Q?" (Scripted.fresh [Raise "boom"] (Raise "down")))
    as (_ & Hminimal & Hplanning & _).
  apply Hminimal. apply Hplanning. reflexivity.
Defined.

(** The three failures of a worker: the search, the language model, the
    store. *)
Lemma research_agent_never_raises_witness :
  research_agent_with Scripted.broken_search store_research
    "Economic factors" 2 (Scripted.fresh [] (Raise "down"))
  = (Return {| agent_id := 2; topic := "Economic factors";
               findings := "Research failed: search unavailable";
               record_sources := []; search_query := "Economic factors" |},
     Scripted.fresh [] (Raise "down"))
  /\ research_agent (P := Scripted.providers)
       "Economic factors" 2 (Scripted.fresh [Raise "rate limit"] (Raise "down"))
     = (Return {| agent_id := 2; topic := "Economic factors";
                  findings := "Research failed: rate limit";
                  record_sources := []; search_query := "Economic factors" |},
        Scripted.fresh [] (Raise "down"))
  /\ research_agent_with (fun q => ret (web_search q)) Scripted.full_store
       "Economic factors" 2 (Scripted.fresh [Scripted.text "fine"] (Raise "down"))
     = (Return {| agent_id := 2; topic := "Economic factors";
                  findings := "Research failed: disk full";
                  record_sources := []; search_query := "Economic factors" |},
        Scripted.fresh [] (Raise "down")).
Proof.
  split; [|split].
  - destruct (research_agent_never_raises (P := Scripted.providers)
                Scripted.broken_search store_research "Economic factors" 2
                (Scripted.fresh [] (Raise "down")))
      as (_ & Hsearch & _).
    apply Hsearch. reflexivity.
  - destruct (research_agent_never_raises (P := Scripted.providers)
                (fun q => ret (web_search q)) store_research
                "Economic factors" 2
                (Scripted.fresh [Raise "rate limit"] (Raise "down")))
      as (_ & _ & Hmodel & _).
    eapply Hmodel; reflexivity.
  - destruct (research_agent_never_raises (P := Scripted.providers)
                (fun q => ret (web_search q)) Scripted.full_store
                "Economic factors" 2
                (Scripted.fresh [Scripted.text "fine"] (Raise "down")))
      as (_ & _ & _ & Hstore).
    eapply Hstore; reflexivity.
Defined.

(** A planning response made of a heading and a blank line. *)
Lemma decomposition_falls_back_witness :
  let s := Scripted.fresh
             [Scripted.text ("# Plan" +:+ PyStr.newline +:+ "   ")]
             (Raise "down") in
  decompose "Q?" s
  = (Return [ "Technical challenges"; "Economic factors";
              "Policy considerations" ],
     Scripted.fresh [] (Raise "down"))
  /\ lead_agent_try Scripted.flaky_worker "Q?" s
     = lead_agent_from Scripted.flaky_worker "Q?"
         [ "Technical challenges"; "Economic factors";
           "Policy considerations" ]
         (Scripted.fresh [] (Raise "down"))
  /\ (forall rep s',
        lead_agent_with Scripted.flaky_worker "Q?" s = (Return rep, s') ->
        subtopics rep = [ "Technical challenges"; "Economic factors";
                          "Policy considerations" ]
        \/ exists e, rep = minimal_report "Q?" e).
Proof.
  intros s.
  apply (decomposition_falls_back (P := Scripted.providers)
           Scripted.flaky_worker "Q?" s
           (Choices [Str ("# Plan" +:+ PyStr.newline +:+ "   ")])
           ([], Raise "down")).
  - reflexivity.
  - right. right. eexists _, _. split; reflexivity.
Defined.

(** Two records and an empty list of choices; two records and a reply
    whose text is empty; no record at all. *)
Lemma synthesis_fallbacks_witness :
  lead_agent_with Scripted.flaky_worker "Q?"
    (Scripted.fresh [Return NoResponse; Return (Choices [])] (Raise "down"))
  = (Return {| research_question := "Q?";
               subtopics := default_subtopics;
               individual_research :=
                 [ {| agent_id := 1; topic := "Technical challenges";
                      findings := "ok"; record_sources := [];
                      search_query := "Technical challenges" |};
                   {| agent_id := 3; topic := "Policy considerations";
                      findings := "ok"; record_sources := [];
                      search_query := "Policy considerations" |} ];
               final_synthesis :=
                 "Synthesis of research on: Q?" +:+ PyStr.newline
                   +:+ PyStr.newline
                   +:+ "Based on findings from 2 research agents.";
               total_agents_used := 2 |},
     Scripted.fresh [] (Raise "down"))
  /\ lead_agent_with Scripted.flaky_worker "Q?"
       (Scripted.fresh [Return NoResponse; Scripted.text ""] (Raise "down"))
     = (Return {| research_question := "Q?";
                  subtopics := default_subtopics;
                  individual_research :=
                    [ {| agent_id := 1; topic := "Technical challenges";
                         findings := "ok"; record_sources := [];
                         search_query := "Technical challenges" |};
                      {| agent_id := 3; topic := "Policy considerations";
                         findings := "ok"; record_sources := [];
                         search_query := "Policy considerations" |} ];
                  final_synthesis := "";
                  total_agents_used := 2 |},
        Scripted.fresh [] (Raise "down"))
  /\ lead_agent_with Scripted.dead_worker "Q?"
       (Scripted.fresh [Return NoResponse] (Raise "down"))
     = (Return {| research_question := "Q?";
                  subtopics := default_subtopics;
                  individual_research := [];
                  final_synthesis :=
                    "Research could not be completed due to technical issues.";
                  total_agents_used := 0 |},
        Scripted.fresh [] (Raise "down")).
Proof.
  pose (records :=
          [ {| agent_id := 1; topic := "Technical challenges";
               findings := "ok"; record_sources := [];
               search_query := "Technical challenges" |};
            {| agent_id := 3; topic := "Policy considerations";
               findings := "ok"; record_sources := [];
               search_query := "Policy considerations" |} ]).
  split; [|split].
  - destruct (synthesis_fallbacks (P := Scripted.providers)
                Scripted.flaky_worker "Q?"
                (Scripted.fresh [Return NoResponse; Return (Choices [])]
                   (Raise "down"))
                default_subtopics
                (Scripted.fresh [Return (Choices [])] (Raise "down"))
                records
                (Scripted.fresh [Return (Choices [])] (Raise "down"))
                eq_refl eq_refl)
      as [Hcall _].
    destruct (Hcall ltac:(discriminate) _ (Choices []) ([], Raise "down")
                eq_refl eq_refl)
      as [Htemplate _].
    apply Htemplate. reflexivity.
  - destruct (synthesis_fallbacks (P := Scripted.providers)
                Scripted.flaky_worker "Q?"
                (Scripted.fresh [Return NoResponse; Scripted.text ""]
                   (Raise "down"))
                default_subtopics
                (Scripted.fresh [Scripted.text ""] (Raise "down"))
                records
                (Scripted.fresh [Scripted.text ""] (Raise "down"))
                eq_refl eq_refl)
      as [Hcall _].
    destruct (Hcall ltac:(discriminate) _ (Choices [Str ""])
                ([], Raise "down") eq_refl eq_refl)
      as [_ Hcontent].
    apply Hcontent. reflexivity.
  - destruct (synthesis_fallbacks (P := Scripted.providers)
                Scripted.dead_worker "Q?"
                (Scripted.fresh [Return NoResponse] (Raise "down"))
                default_subtopics
                (Scripted.fresh [] (Raise "down"))
                []
                (Scripted.fresh [] (Raise "down"))
                eq_refl eq_refl)
      as [_ Hnone].
    apply Hnone. reflexivity.
Defined.

(** A service that answers, a service that is down, and a report whose
    question is empty. *)
Lemma evaluation_failures_are_reported_witness :
  let report := minimal_report "Q?" "boom" in
  evaluate_research_quality (P := Scripted.providers) report
    (Scripted.fresh [] (Return [Scripted.scored]))
  = (Return (Summary true
               (<["Answer Relevancy" := 8 # 10]>
                  (<["Faithfulness" := 9 # 10]> ∅))
               [ {| name := "Faithfulness"; score := 9 # 10 |};
                 {| name := "Answer Relevancy"; score := 8 # 10 |} ]),
     Scripted.fresh [] (Return [Scripted.scored]))
  /\ evaluate_research_quality (P := Scripted.providers) report
       (Scripted.fresh [] (Raise "down"))
     = (Return (EvaluationFailed "down"), Scripted.fresh [] (Raise "down"))
  /\ evaluate_research_quality (P := Scripted.providers)
       (minimal_report "" "boom") (Scripted.fresh [] (Raise "down"))
     = (Raise "Input must be a non-empty string",
        Scripted.fresh [] (Raise "down")).
Proof.
  intros report. split; [|split].
  - destruct (evaluation_failures_are_reported (P := Scripted.providers)
                report (Scripted.fresh [] (Return [Scripted.scored])))
      as (_ & Haccepted).
    destruct (Haccepted eq_refl) as (_ & _ & _ & _ & Hscored).
    destruct (Hscored Scripted.scored [] _ ([], Return [Scripted.scored])
                eq_refl eq_refl) as [Hsummary _].
    exact Hsummary.
  - destruct (evaluation_failures_are_reported (P := Scripted.providers)
                report (Scripted.fresh [] (Raise "down")))
      as (_ & Haccepted).
    destruct (Haccepted eq_refl) as (_ & Hdown & _).
    apply Hdown. reflexivity.
  - destruct (evaluation_failures_are_reported (P := Scripted.providers)
                (minimal_report "" "boom") (Scripted.fresh [] (Raise "down")))
      as (Hrejected & _).
    apply Hrejected. reflexivity.
Defined.

(** The second worker is skipped: the records keep the ids 1 and 3. *)
Lemma agent_ids_are_positions_witness :
  exists rep s',
    lead_agent_with Scripted.flaky_worker "Q?"
      (Scripted.fresh [] (Raise "down")) = (Return rep, s')
    /\ map agent_id (individual_research rep) = [1; 3]
    /\ Forall (fun r => 1 <= agent_id r
                        /\ subtopics rep !! Z.to_nat (agent_id r - 1)
                           = Some (topic r))
              (individual_research rep)
    /\ StronglySorted Z.lt (map agent_id (individual_research rep)).
Proof.
  eexists _, _. split; [reflexivity|]. split; [reflexivity|].
  apply (agent_ids_are_positions (P := Scripted.providers)
           Scripted.flaky_worker flaky_worker_keeps_identity "Q?"
           (Scripted.fresh [] (Raise "down")) _
           (Scripted.fresh [] (Raise "down"))).
  reflexivity.
Defined.

(** A run that stores its record, and a run that does not. *)
Lemma store_grows_on_success_only_witness :
  (exists r,
      research_agent (P := Scripted.providers) "Economic factors" 2
        (Scripted.fresh [Scripted.text "fine"] (Raise "down"))
      = (Return r, @Build_system Scripted.providers [r] ([], Raise "down"))
      /\ findings r = "fine")
  /\ research_agent (P := Scripted.providers) "Economic factors" 2
       (Scripted.fresh [Raise "rate limit"] (Raise "down"))
     = (Return (degraded_record "Economic factors" 2 "rate limit"),
        Scripted.fresh [] (Raise "down")).
Proof.
  split.
  - destruct (store_grows_on_success_only (P := Scripted.providers)
                "Economic factors" 2
                (Scripted.fresh [Scripted.text "fine"] (Raise "down")))
      as [Hstored _].
    eexists. split; [apply Hstored; reflexivity | reflexivity].
  - destruct (store_grows_on_success_only (P := Scripted.providers)
                "Economic factors" 2
                (Scripted.fresh [Raise "rate limit"] (Raise "down")))
      as [_ Hdegraded].
    apply Hdegraded. reflexivity.
Defined.

(** C9, as stated, fails: a worker whose language-model call raises
    returns a (degraded) record, and the store has not grown. *)
Lemma degraded_record_is_not_stored :
  ~ (forall (subject : string) (id : Z) (s : @system Scripted.providers) r s',
        research_agent subject id s = (Return r, s') ->
        research_database s' = research_database s ++ [r]).
Proof.
  intros H.
  specialize (H "Economic factors" 2
                (Scripted.fresh [Raise "rate limit"] (Raise "down"))
                _ _ eq_refl).
  discriminate H.
Qed.

(** C6, as stated, fails: with a record collected and a synthesis reply
    whose text is empty, [final_synthesis] is that empty text and not the
    template. *)
Lemma empty_synthesis_text_is_kept :
  ~ (forall (q : string) (s : @system Scripted.providers)
            subs s0 records s1 all_findings resp w rep s',
        decompose q s = (Return subs, s0) ->
        delegate research_agent 0 subs [] s0 = (Return records, s1) ->
        records <> [] ->
        join_items PyStr.newline (map findings records) = Return all_findings ->
        chat_completions_create (synthesis_request q all_findings) (world s1)
        = (Return resp, w) ->
        no_usable_text resp = true ->
        lead_agent q s = (Return rep, s') ->
        final_synthesis rep = Str (synthesis_template q (length records))).
Proof.
  intros H.
  specialize (H "Q?"
                (Scripted.fresh
                   [Scripted.text "Costs"; Scripted.text "fine";
                    Scripted.text ""]
                   (Raise "down"))
                _ _ _ _ _ _ _ _ _
                eq_refl eq_refl ltac:(discriminate) eq_refl eq_refl
                eq_refl eq_refl).
  discriminate H.
Qed.

(** C7, as stated, fails: for the report [lead_agent] returns on an empty
    question, [Example] rejects the input before the [try] and
    [evaluate_research_quality] raises. *)
Lemma rejected_example_reaches_the_caller :
  ~ (forall (q : string) (s : @system Scripted.providers) report s1,
        lead_agent q s = (Return report, s1) ->
        exists summary s2,
          evaluate_research_quality report s1 = (Return summary, s2)).
Proof.
  intros H.
  destruct (H "" (Scripted.fresh [Raise "boom"] (Raise "down")) _ _ eq_refl)
    as (summary & s2 & Hrun).
  discriminate Hrun.
Qed.

(** * Further properties of the code *)

(** ** Stripping and splitting *)

Lemma append_cons a (x y : string) : String a x +:+ y = String a (x +:+ y).
Proof. reflexivity. Qed.

Lemma lstrip_head s c r : PyStr.lstrip s = String c r -> PyStr.isspace c = false.
Proof.
  induction s as [|a s IH]; simpl; [discriminate|].
  destruct (PyStr.isspace a) eqn:Ha; [exact IH|].
  now intros [= <- _].
Qed.

Lemma rstrip_keeps_head c s :
  PyStr.isspace c = false -> exists r, PyStr.rstrip (String c s) = String c r.
Proof.
  intros Hc. simpl. destruct (PyStr.rstrip s); [rewrite Hc|]; eauto.
Qed.

Lemma rstrip_idempotent s : PyStr.rstrip (PyStr.rstrip s) = PyStr.rstrip s.
Proof.
  induction s as [|c s IH]; [reflexivity|].
  simpl. destruct (PyStr.rstrip s) as [|a r] eqn:Hr.
  - destruct (PyStr.isspace c) eqn:Hc; [reflexivity|].
    simpl. now rewrite Hc.
  - change (PyStr.rstrip (String c (String a r)))
      with (match PyStr.rstrip (String a r) with
            | EmptyString =>
                if PyStr.isspace c then EmptyString else String c EmptyString
            | String _ _ as r' => String c r'
            end).
    now rewrite IH.
Qed.

Lemma strip_idempotent s : PyStr.strip (PyStr.strip s) = PyStr.strip s.
Proof.
  unfold PyStr.strip.
  destruct (PyStr.lstrip s) as [|c u] eqn:Hu; [reflexivity|].
  pose proof (lstrip_head _ _ _ Hu) as Hc.
  destruct (rstrip_keeps_head c u Hc) as [r Hr].
  rewrite Hr. cbn [PyStr.lstrip]. rewrite Hc, <- Hr.
  apply rstrip_idempotent.
Qed.

Lemma lstrip_has_char c s :
  has_char c s = false -> has_char c (PyStr.lstrip s) = false.
Proof.
  induction s as [|a s IH]; simpl; [easy|].
  intros H. apply orb_false_iff in H as [Ha Hs].
  destruct (PyStr.isspace a); [now apply IH|].
  simpl. now rewrite Ha, Hs.
Qed.

Lemma rstrip_has_char c s :
  has_char c s = false -> has_char c (PyStr.rstrip s) = false.
Proof.
  induction s as [|a s IH]; simpl; [easy|].
  intros H. apply orb_false_iff in H as [Ha Hs].
  specialize (IH Hs).
  destruct (PyStr.rstrip s) as [|b r].
  - destruct (PyStr.isspace a); simpl; [easy | now rewrite Ha].
  - cbn [has_char]. cbn [has_char] in IH. now rewrite Ha, IH.
Qed.

Lemma strip_has_char c s :
  has_char c s = false -> has_char c (PyStr.strip s) = false.
Proof. intros H. now apply rstrip_has_char, lstrip_has_char. Qed.

(** No piece of a split contains the separator. *)
Lemma split_pieces sep s :
  Forall (fun piece => has_char sep piece = false) (PyStr.split sep s).
Proof.
  induction s as [|a s IH]; simpl.
  - repeat constructor.
  - destruct (Ascii.eqb a sep) eqn:Ha.
    + now constructor.
    + destruct (PyStr.split sep s) as [|piece pieces].
      * constructor; [|constructor]. simpl. now rewrite Ha.
      * apply Forall_cons in IH as [Hp Hps].
        constructor; [|exact Hps]. simpl. now rewrite Ha, Hp.
Qed.

Lemma split_one_line x :
  has_char PyStr.LF x = false -> PyStr.split PyStr.LF x = [x].
Proof.
  induction x as [|a x IH]; [reflexivity|].
  simpl. intros H. apply orb_false_iff in H as [Ha Hx].
  now rewrite Ha, (IH Hx).
Qed.

Lemma split_first_line x rest :
  has_char PyStr.LF x = false ->
  PyStr.split PyStr.LF (x +:+ PyStr.newline +:+ rest)
  = x :: PyStr.split PyStr.LF rest.
Proof.
  induction x as [|a x IH]; intros H.
  - reflexivity.
  - simpl in H. apply orb_false_iff in H as [Ha Hx].
    rewrite append_cons. cbn [PyStr.split]. now rewrite Ha, (IH Hx).
Qed.

Lemma split_join lines :
  Forall (fun t => has_char PyStr.LF t = false) lines ->
  PyStr.split PyStr.LF (PyStr.join PyStr.newline lines)
  = match lines with [] => [EmptyString] | _ :: _ => lines end.
Proof.
  induction 1 as [|x rest Hx Hrest IH]; [reflexivity|].
  destruct rest as [|y rest].
  - now apply split_one_line.
  - change (PyStr.join PyStr.newline (x :: y :: rest))
      with (x +:+ PyStr.newline +:+ PyStr.join PyStr.newline (y :: rest)).
    now rewrite split_first_line, IH.
Qed.

(** ** What a subtopic looks like *)

Lemma subtopic_lines_clean lines :
  Forall (fun t => has_char PyStr.LF t = false) lines ->
  Forall clean_subtopic (subtopic_lines lines).
Proof.
  induction 1 as [|t rest Ht Hrest IH]; cbn [subtopic_lines]; [constructor|].
  destruct (PyStr.truthy (PyStr.strip t)) eqn:Hne; [|exact IH].
  destruct (PyStr.startswith "#" (PyStr.strip t)) eqn:Hh; [exact IH|].
  cbn [andb negb]. constructor; [|exact IH].
  split; [exact Hne|]. split; [apply strip_idempotent|].
  split; [exact Hh | now apply strip_has_char].
Qed.

Lemma subtopic_lines_of_clean lines :
  Forall clean_subtopic lines -> subtopic_lines lines = lines.
Proof.
  induction 1 as [|t rest (Hne & Hstrip & Hh & _) Hrest IH]; [reflexivity|].
  cbn [subtopic_lines]. rewrite Hstrip, Hne, Hh. cbn [andb negb].
  now rewrite IH.
Qed.

Lemma default_subtopics_clean : Forall clean_subtopic default_subtopics.
Proof. repeat constructor. Qed.

(** The plan that decomposition returns. *)
Lemma decompose_clean `{P : Providers} q s subs s' :
  decompose q s = (Return subs, s') ->
  (1 <= length subs <= 3)%nat /\ Forall clean_subtopic subs.
Proof.
  intros H. split; [exact (decompose_length _ _ _ _ H)|].
  destruct (chat_completions_create (planning_request q) (world s))
    as [[resp|e] w] eqn:Hcall.
  - rewrite (decompose_Return _ _ _ _ Hcall) in H.
    destruct (first_choice resp) as [[text|]|];
      [|discriminate|injection H as <- _; apply default_subtopics_clean].
    injection H as <- _.
    assert (Hclean : Forall clean_subtopic (parse_subtopics text)).
    { unfold parse_subtopics. apply Forall_take, subtopic_lines_clean.
      apply split_pieces. }
    destruct (parse_subtopics text); [apply default_subtopics_clean|].
    exact Hclean.
  - rewrite (decompose_Raise _ _ _ _ Hcall) in H. discriminate.
Qed.

(** X1. Whenever the planning call returns, the plan has between one and
    three subtopics, and each of them is a non-empty single line without
    surrounding whitespace that does not start with the heading marker. *)
Theorem decomposed_subtopics_are_clean `{P : Providers} q s subs s' :
  decompose q s = (Return subs, s') ->
  (1 <= length subs <= 3)%nat /\ Forall clean_subtopic subs.
Proof. apply decompose_clean. Qed.

(** X2. A planning text that lists clean subtopics, one per line, is
    parsed back into those subtopics, cut to the first three. *)
Theorem parse_of_joined_subtopics lines :
  Forall clean_subtopic lines ->
  parse_subtopics (PyStr.join PyStr.newline lines) = take 3 lines.
Proof.
  intros H. unfold parse_subtopics.
  rewrite split_join.
  - destruct lines; [reflexivity|]. now rewrite subtopic_lines_of_clean.
  - eapply Forall_impl; [exact H|]. now intros t (_ & _ & _ & Hlf).
Qed.

(** ** The scores of an evaluation *)

Section Scores.
Context `{P : Providers}.

Lemma scores_of_snoc (data : list (ScorerData Score)) d :
  scores_of (data ++ [d]) = <[name d := score d]> (scores_of data).
Proof. unfold scores_of. now rewrite foldl_app. Qed.

(** X3. In the scores of a summary, a metric name maps to the score of
    the last scorer entry of that name; a name no entry carries has no
    score. *)
Theorem scores_of_last_wins (data : list (ScorerData Score)) (n : string) :
  scores_of data !! n = score <$> last (filter (fun d => name d = n) data).
Proof.
  induction data as [|d data IH] using rev_ind.
  - unfold scores_of. simpl. apply lookup_empty.
  - rewrite scores_of_snoc, filter_app.
    destruct (decide (name d = n)) as [Hn|Hn].
    + rewrite (filter_cons_True _ d []) by exact Hn.
      rewrite filter_nil, last_snoc, Hn. simpl. apply lookup_insert_eq.
    + rewrite (filter_cons_False _ d []) by exact Hn.
      rewrite filter_nil, app_nil_r, lookup_insert_ne by exact Hn.
      exact IH.
Qed.

(** X4. A summary reports success only when the service returned a first
    result that succeeded and carries scorer data; the summary is then
    built from that result, and [research_database] is untouched. *)
Theorem success_comes_from_the_service report s summary s' :
  evaluate_research_quality report s = (Return summary, s') ->
  evaluation_success summary = true ->
  exists first others data,
    run_evaluation (evaluation_request report) (world s)
    = (Return (first :: others), world s')
    /\ success first = true
    /\ scorers_data first = Some data
    /\ summary = Summary true (scores_of data) data
    /\ research_database s' = research_database s.
Proof.
  destruct (example_error (example_of report)) as [e|] eqn:Hexample.
  { rewrite (evaluate_research_quality_rejected _ _ _ Hexample).
    discriminate. }
  rewrite (evaluate_research_quality_accepted _ _ Hexample).
  unfold try_except, bind, evaluate.
  destruct (run_evaluation (evaluation_request report) (world s))
    as [[results|e] w] eqn:Hcall.
  - destruct results as [|first others]; simpl.
    + intros [= <- _]. discriminate.
    + destruct (scorers_data first) as [data|] eqn:Hdata; simpl.
      * intros [= <- <-]. simpl. intros Hok.
        exists first, others, data. now rewrite Hok.
      * intros [= <- _]. discriminate.
  - simpl. intros [= <- _]. discriminate.
Qed.

End Scores.

(** ** The class's own worker in the fan-out *)

Section OwnWorker.
Context `{P : Providers}.

(** The two ways a worker run ends. *)
Lemma research_agent_cases t i s :
  let found := web_search (t +:+ " research analysis") in
  (exists resp w,
      research_agent t i s
      = (Return (research_data t i found resp),
         {| research_database :=
              research_database s ++ [research_data t i found resp];
            world := w |}))
  \/ (exists e w,
        research_agent t i s
        = (Return (degraded_record t i e),
           {| research_database := research_database s; world := w |})).
Proof.
  intros found.
  destruct (chat_completions_create (research_request t found) (world s))
    as [[resp|e] w] eqn:Hcall.
  - left. exists resp, w. unfold research_agent.
    eapply research_success;
      [reflexivity | apply create_Return, Hcall | reflexivity].
  - right. exists e, w. unfold research_agent.
    eapply model_failure; [reflexivity | apply create_Raise, Hcall].
Qed.

(** The fan-out with the class's own worker, from any index on. *)
Lemma fan_out_own_worker subs : forall i acc s,
  exists new s',
    delegate research_agent i subs acc s = (Return (acc ++ new), s')
    /\ map topic new = subs
    /\ map agent_id new = seqZ (Z.of_nat i + 1) (Z.of_nat (length subs))
    /\ research_database s'
       = research_database s ++ List.filter has_sources new.
Proof.
  induction subs as [|t rest IH]; intros i acc s.
  - exists [], s. simpl. now rewrite !app_nil_r.
  - rewrite delegate_cons.
    assert (Hids : forall r, agent_id r = Z.of_nat i + 1 ->
              forall new, map agent_id new
                          = seqZ (Z.of_nat (S i) + 1) (Z.of_nat (length rest)) ->
              map agent_id (r :: new)
              = seqZ (Z.of_nat i + 1) (Z.of_nat (length (t :: rest)))).
    { intros r Hr new Hnew. simpl map. rewrite Hr, Hnew.
      rewrite (seqZ_cons (Z.of_nat i + 1)) by (simpl; lia).
      f_equal. f_equal; simpl length; lia. }
    destruct (research_agent_cases t (Z.of_nat i + 1) s)
      as [(resp & w & Hrun) | (e & w & Hrun)]; rewrite Hrun.
    + destruct (IH (S i) (acc ++ [research_data t (Z.of_nat i + 1)
                   (web_search (t +:+ " research analysis")) resp])
                  {| research_database := research_database s ++
                       [research_data t (Z.of_nat i + 1)
                          (web_search (t +:+ " research analysis")) resp];
                     world := w |})
        as (new & s' & Hrest & Htopics & Hnew & Hdb).
      eexists (_ :: new), s'. rewrite <- app_assoc in Hrest.
      split; [exact Hrest|]. split; [simpl; now rewrite Htopics|].
      split; [now apply Hids|].
      rewrite Hdb. simpl. now rewrite <- app_assoc.
    + destruct (IH (S i) (acc ++ [degraded_record t (Z.of_nat i + 1) e])
                  {| research_database := research_database s; world := w |})
        as (new & s' & Hrest & Htopics & Hnew & Hdb).
      eexists (_ :: new), s'. rewrite <- app_assoc in Hrest.
      split; [exact Hrest|]. split; [simpl; now rewrite Htopics|].
      split; [now apply Hids|].
      rewrite Hdb. reflexivity.
Qed.

(** X5. With the class's own worker the fan-out skips nothing: it adds
    one record per subtopic, in order, with the subtopic as topic and
    consecutive ids, and [research_database] grows by exactly the added
    records that carry sources (the ones that are not degraded). *)
Theorem fan_out_covers_every_subtopic subs i acc s :
  exists new s',
    delegate research_agent i subs acc s = (Return (acc ++ new), s')
    /\ map topic new = subs
    /\ map agent_id new = seqZ (Z.of_nat i + 1) (Z.of_nat (length subs))
    /\ research_database s'
       = research_database s ++ List.filter has_sources new.
Proof. apply fan_out_own_worker. Qed.

End OwnWorker.

(** ** Joining findings *)

(** A join that succeeds has met only texts. *)
Lemma str_items_all items : forall i strings,
  str_items i items = Return strings ->
  forall v, In v items -> exists f, v = Str f /\ In f strings.
Proof.
  induction items as [|[x|] rest IH]; intros i strings H v Hin.
  - destruct Hin.
  - simpl in H.
    destruct (str_items (S i) rest) as [tail|e] eqn:Hrest; [|discriminate].
    injection H as <-. destruct Hin as [<-|Hin].
    + exists x. split; [reflexivity | now left].
    + destruct (IH _ _ Hrest _ Hin) as (f & -> & Hf).
      exists f. split; [reflexivity | now right].
  - discriminate.
Qed.

(** ** The lead agent as the class runs it *)

Section OwnLead.
Context `{P : Providers}.

Lemma decompose_database q s o s' :
  decompose q s = (o, s') -> research_database s' = research_database s.
Proof.
  unfold decompose, bind, ret, raise.
  destruct (create (planning_request q) s) as [[resp|e] s1] eqn:Hc;
    apply create_database in Hc; [|now intros [= _ <-]].
  destruct (first_choice resp) as [[text|]|]; now intros [= _ <-].
Qed.

Lemma synthesize_database q records s o s' :
  synthesize q records s = (o, s') ->
  research_database s' = research_database s.
Proof.
  unfold synthesize, bind, ret, lift. destruct records as [|r rs].
  - now intros [= _ <-].
  - destruct (join_items _ _) as [all_findings|e]; [|now intros [= _ <-]].
    destruct (create _ s) as [[resp|e] s1] eqn:Hc;
      apply create_database in Hc; now intros [= _ <-].
Qed.

Lemma filter_has_sources records :
  Forall (fun r => has_sources r = true) (List.filter has_sources records)
  /\ (length (List.filter has_sources records) <= length records)%nat.
Proof.
  induction records as [|r rs [IH1 IH2]]; simpl; [split; [constructor | lia]|].
  destruct (has_sources r) eqn:Hr; simpl; split; try lia.
  - now constructor.
  - exact IH1.
Qed.

(** The [try] block of [lead_agent], step by step, once the planning call
    has returned. *)
Lemma lead_agent_steps q s subs s0 :
  decompose q s = (Return subs, s0) ->
  exists records s1 o s2,
    delegate research_agent 0 subs [] s0 = (Return records, s1)
    /\ map topic records = subs
    /\ map agent_id records = seqZ 1 (Z.of_nat (length subs))
    /\ research_database s1
       = research_database s ++ List.filter has_sources records
    /\ synthesize q records s1 = (o, s2)
    /\ lead_agent q s
       = match o with
         | Return text =>
             (Return {| research_question := q;
                        subtopics := subs;
                        individual_research := records;
                        final_synthesis := text;
                        total_agents_used := length records |}, s2)
         | Raise e => (Return (minimal_report q e), s2)
         end.
Proof.
  intros Hd.
  destruct (fan_out_own_worker subs 0%nat [] s0)
    as (records & s1 & Hrun & Htopics & Hids & Hdb).
  simpl in Hrun, Hids.
  destruct (synthesize q records s1) as [o s2] eqn:Hsyn.
  exists records, s1, o, s2.
  rewrite (decompose_database _ _ _ _ Hd) in Hdb.
  repeat (split; [assumption|]).
  unfold lead_agent, lead_agent_with, try_except.
  rewrite (lead_agent_try_Return _ _ _ _ _ Hd). unfold lead_agent_from.
  erewrite bind_Return by exact Hrun.
  unfold bind, ret. rewrite Hsyn. now destruct o.
Qed.

(** X6. A report of [lead_agent] is either the minimal one or complete:
    it echoes the question, has one to three clean subtopics, and holds
    exactly one record per subtopic, in order, with ids 1, 2, ... and the
    subtopic as topic; no worker is ever skipped. *)
Theorem lead_agent_report_is_complete q s rep s' :
  lead_agent q s = (Return rep, s') ->
  (exists e, rep = minimal_report q e)
  \/ (research_question rep = q
      /\ (1 <= length (subtopics rep) <= 3)%nat
      /\ Forall clean_subtopic (subtopics rep)
      /\ map topic (individual_research rep) = subtopics rep
      /\ map agent_id (individual_research rep)
         = seqZ 1 (Z.of_nat (length (subtopics rep)))
      /\ total_agents_used rep = length (subtopics rep)).
Proof.
  destruct (decompose q s) as [[subs|e] s0] eqn:Hd.
  - destruct (decompose_clean _ _ _ _ Hd) as [Hlen Hclean].
    destruct (lead_agent_steps _ _ _ _ Hd)
      as (records & s1 & o & s2 & _ & Htopics & Hids & _ & _ & ->).
    destruct o as [text|e]; intros [= <- _].
    + right. simpl.
      assert (Hn : length records = length subs)
        by now rewrite <- Htopics, length_map.
      repeat split; assumption || lia.
    + left. now exists e.
  - unfold lead_agent, lead_agent_with, try_except.
    rewrite (lead_agent_try_Raise _ _ _ _ _ Hd).
    intros [= <- _]. left. now exists e.
Qed.

(** What a run of [lead_agent] leaves in the store. *)
Lemma lead_agent_store q s rep s' :
  lead_agent q s = (Return rep, s') ->
  exists stored,
    research_database s' = research_database s ++ stored
    /\ (length stored <= 3)%nat
    /\ Forall (fun r => has_sources r = true) stored
    /\ (individual_research rep <> [] ->
        stored = List.filter has_sources (individual_research rep)).
Proof.
  destruct (decompose q s) as [[subs|e] s0] eqn:Hd.
  - destruct (decompose_length _ _ _ _ Hd) as [_ Hlen].
    destruct (lead_agent_steps _ _ _ _ Hd)
      as (records & s1 & o & s2 & _ & Htopics & _ & Hdb & Hsyn & ->).
    apply synthesize_database in Hsyn.
    destruct (filter_has_sources records) as [Hall Hle].
    assert (Hn : length records = length subs)
      by now rewrite <- Htopics, length_map.
    destruct o as [text|e]; intros [= <- <-];
      exists (List.filter has_sources records); simpl;
      (split; [congruence|]); (split; [lia|]); (split; [exact Hall|]); easy.
  - unfold lead_agent, lead_agent_with, try_except.
    rewrite (lead_agent_try_Raise _ _ _ _ _ Hd).
    intros [= <- <-]. exists []. rewrite app_nil_r.
    split; [exact (decompose_database _ _ _ _ Hd)|].
    split; [simpl; lia|]. split; [constructor | easy].
Qed.

(** X7. [lead_agent] only appends to [research_database]: at most three
    records, all carrying sources; when the report is not the minimal
    one, they are exactly its records that are not degraded. *)
Theorem lead_agent_appends_to_the_store q s rep s' :
  lead_agent q s = (Return rep, s') ->
  exists stored,
    research_database s' = research_database s ++ stored
    /\ (length stored <= 3)%nat
    /\ Forall (fun r => has_sources r = true) stored
    /\ (individual_research rep <> [] ->
        stored = List.filter has_sources (individual_research rep)).
Proof. apply lead_agent_store. Qed.

(** Every report echoes the question. *)
Lemma lead_agent_report_question q s rep s' :
  lead_agent q s = (Return rep, s') -> research_question rep = q.
Proof.
  destruct (decompose q s) as [[subs|e] s0] eqn:Hd.
  - destruct (lead_agent_steps _ _ _ _ Hd)
      as (records & s1 & o & s2 & _ & _ & _ & _ & _ & ->).
    now destruct o; intros [= <- _].
  - unfold lead_agent, lead_agent_with, try_except.
    rewrite (lead_agent_try_Raise _ _ _ _ _ Hd).
    now intros [= <- _].
Qed.

(** The findings of a returned report are texts. *)
Lemma lead_agent_findings q s rep s' :
  lead_agent q s = (Return rep, s') ->
  Forall (fun r => exists finding, findings r = Str finding)
         (individual_research rep).
Proof.
  destruct (decompose q s) as [[subs|e] s0] eqn:Hd.
  - destruct (lead_agent_steps _ _ _ _ Hd)
      as (records & s1 & o & s2 & _ & _ & _ & _ & Hsyn & ->).
    destruct o as [text|e]; intros [= <- _]; simpl; [|constructor].
    destruct records as [|r rs]; [constructor|].
    destruct (join_items PyStr.newline (map findings (r :: rs)))
      as [all_findings|e] eqn:Hjoin.
    + unfold join_items in Hjoin.
      destruct (str_items 0 (map findings (r :: rs)))
        as [strings|e] eqn:Hitems; [|discriminate].
      apply Forall_forall. intros r' Hin.
      destruct (str_items_all _ _ _ Hitems (findings r')) as (f & Hf & _).
      * apply in_map. now apply list_elem_of_In.
      * now exists f.
    + rewrite (synthesize_join_Raise _ _ _ _ _ Hjoin) in Hsyn. discriminate.
  - unfold lead_agent, lead_agent_with, try_except.
    rewrite (lead_agent_try_Raise _ _ _ _ _ Hd).
    intros [= <- _]. constructor.
Qed.

(** X12. No record of a report that [lead_agent] returns has [None] as
    findings: a worker may return such a record, but the join of the
    synthesis step then raises and the report is the minimal one, which
    has no record. *)
Theorem report_findings_are_text q s rep s' :
  lead_agent q s = (Return rep, s') ->
  Forall (fun r => exists finding, findings r = Str finding)
         (individual_research rep).
Proof. apply lead_agent_findings. Qed.

End OwnLead.

(** ** How many language-model calls a run makes *)

Section Calls.
Context {P : Providers}.

Local Abbreviation system' := (@system (counting P)).

Lemma create_calls r (s : system') o s' :
  create r s = (o, s') -> calls s' = S (calls s).
Proof.
  unfold create, calls. simpl.
  destruct (@chat_completions_create P r (fst (world s))) as [o0 w].
  now intros [= _ <-].
Qed.

Lemma research_agent_calls t i (s : system') o s' :
  research_agent t i s = (o, s') -> calls s' = S (calls s).
Proof.
  unfold research_agent, research_agent_with, try_except, bind, ret,
    store_research.
  destruct (create _ s) as [[resp|e] s1] eqn:Hc;
    apply create_calls in Hc; now intros [= _ <-].
Qed.

Lemma delegate_calls subs : forall i acc (s : system') records s',
  delegate research_agent i subs acc s = (Return records, s') ->
  calls s' = (calls s + length subs)%nat.
Proof.
  induction subs as [|t rest IH]; intros i acc s records s'.
  - simpl. intros [= _ <-]. lia.
  - rewrite delegate_cons.
    destruct (research_agent t (Z.of_nat i + 1) s) as [[r|e] s1] eqn:Hw;
      apply research_agent_calls in Hw; intros Hrest;
      apply IH in Hrest; simpl; lia.
Qed.

Lemma decompose_calls q (s : system') o s' :
  decompose q s = (o, s') -> calls s' = S (calls s).
Proof.
  unfold decompose, bind, ret, raise.
  destruct (create _ s) as [[resp|e] s1] eqn:Hc;
    apply create_calls in Hc; [|now intros [= _ <-]].
  destruct (first_choice resp) as [[text|]|]; now intros [= _ <-].
Qed.

(** The synthesis step makes its call only once the findings are
    joined. *)
Lemma synthesize_calls q r rs (s : system') o s' :
  synthesize q (r :: rs) s = (o, s') ->
  calls s'
  = match join_items PyStr.newline (map findings (r :: rs)) with
    | Return _ => S (calls s)
    | Raise _ => calls s
    end.
Proof.
  unfold synthesize, bind, ret, lift.
  destruct (join_items _ _) as [all_findings|e]; [|now intros [= _ <-]].
  destruct (create _ s) as [[resp|e] s1] eqn:Hc;
    apply create_calls in Hc; now intros [= _ <-].
Qed.

(** X8. One worker run makes exactly one language-model call, whether it
    ends with a stored record or a degraded one. *)
Theorem worker_makes_one_call t i (s : system') r s' :
  research_agent t i s = (Return r, s') -> calls s' = S (calls s).
Proof. apply research_agent_calls. Qed.

(** X9. A run of [lead_agent] makes exactly one language-model call when
    decomposition raises, which it does when the planning call raises
    and when the planning content is [None].  Otherwise it makes one call
    for planning and one per subtopic, and then one for the synthesis
    when the findings join, none when a finding is [None].  That is
    between one and five calls; a report with a record took two calls
    more than it has agents. *)
Theorem lead_agent_call_count q (s : system') rep s' :
  lead_agent q s = (Return rep, s') ->
  (forall e w,
      chat_completions_create (planning_request q) (world s) = (Raise e, w) ->
      calls s' = (calls s + 1)%nat)
  /\ (forall e s0,
        decompose q s = (Raise e, s0) -> calls s' = (calls s + 1)%nat)
  /\ (forall subs s0,
        decompose q s = (Return subs, s0) ->
        exists records s1,
          delegate research_agent 0 subs [] s0 = (Return records, s1)
          /\ length records = length subs
          /\ (forall all_findings,
                join_items PyStr.newline (map findings records)
                = Return all_findings ->
                calls s' = (calls s + 1 + length subs + 1)%nat)
          /\ (forall e,
                join_items PyStr.newline (map findings records) = Raise e ->
                calls s' = (calls s + 1 + length subs)%nat))
  /\ (calls s + 1 <= calls s' <= calls s + 5)%nat
  /\ (individual_research rep <> [] ->
      calls s' = (calls s + 2 + total_agents_used rep)%nat).
Proof.
  intros Hrun0.
  assert (Hraise : forall e s0,
             decompose q s = (Raise e, s0) -> calls s' = (calls s + 1)%nat).
  { intros e s0 Hd. revert Hrun0.
    unfold lead_agent, lead_agent_with, try_except.
    rewrite (lead_agent_try_Raise _ _ _ _ _ Hd).
    apply decompose_calls in Hd. intros [= _ <-]. lia. }
  split.
  { intros e w Hcall. eapply Hraise. apply decompose_Raise, Hcall. }
  split; [exact Hraise|].
  destruct (decompose q s) as [[subs|e] s0] eqn:Hd.
  - destruct (decompose_length _ _ _ _ Hd) as [Hlo Hhi].
    destruct (lead_agent_steps _ _ _ _ Hd)
      as (records & s1 & o & s2 & Hrun & Htopics & _ & _ & Hsyn & Hlead).
    assert (Hn : length records = length subs)
      by now rewrite <- Htopics, length_map.
    apply decompose_calls in Hd. pose proof (delegate_calls _ _ _ _ _ _ Hrun).
    destruct records as [|r rs]; [simpl in Hn; lia|].
    pose proof (synthesize_calls _ _ _ _ _ _ Hsyn) as Hcalls.
    assert (Hs2 : s' = s2).
    { rewrite Hlead in Hrun0. now destruct o; injection Hrun0 as _ <-. }
    subst s'.
    split; [|split].
    + intros subs' s0' [= <- <-]. exists (r :: rs), s1.
      split; [exact Hrun|]. split; [exact Hn|]. split.
      * intros all_findings Hjoin. rewrite Hjoin in Hcalls. lia.
      * intros e Hjoin. rewrite Hjoin in Hcalls. lia.
    + destruct (join_items _ _); lia.
    + intros Hne. rewrite Hlead in Hrun0.
      destruct o as [text|e]; injection Hrun0 as <-;
        [|now simpl in Hne].
      simpl. simpl in Hn.
      destruct (join_items PyStr.newline (map findings (r :: rs)))
        as [all_findings|e] eqn:Hjoin; [lia|].
      rewrite (synthesize_join_Raise _ _ _ _ _ Hjoin) in Hsyn.
      discriminate.
  - specialize (Hraise _ _ eq_refl).
    split; [intros subs s1; discriminate|]. split; [lia|].
    intros Hne. revert Hrun0.
    unfold lead_agent, lead_agent_with, try_except.
    rewrite (lead_agent_try_Raise _ _ _ _ _ Hd).
    intros [= <- _]. now simpl in Hne.
Qed.

End Calls.

(** ** The entry point *)

Section EntryPoint.
Context `{P : Providers}.

Lemma evaluate_research_quality_database report s o s' :
  evaluate_research_quality report s = (o, s') ->
  research_database s' = research_database s.
Proof.
  destruct (example_error (example_of report)) as [e|] eqn:Hexample.
  { rewrite (evaluate_research_quality_rejected _ _ _ Hexample).
    now intros [= _ <-]. }
  rewrite (evaluate_research_quality_accepted _ _ Hexample).
  unfold try_except, bind, ret, evaluate.
  destruct (run_evaluation _ (world s)) as [[results|e] w].
  - destruct results as [|first others]; simpl; [now intros [= _ <-]|].
    destruct (scorers_data first); simpl; now intros [= _ <-].
  - simpl. now intros [= _ <-].
Qed.

(** X10. [main] returns the report of [lead_agent] for its question and,
    when [Example] accepts the fields taken from that report, the
    evaluation of the report: it does not raise then, whatever the
    providers do, the scores being read only from a summary that has
    them, and the store it leaves holds at most three records.  When
    [Example] rejects the fields, [main] raises that error.  The fields
    are the fixed, non-empty question as input, the synthesis as output,
    and findings that are all texts as context. *)
Theorem main_returns_unless_example_rejects w :
  exists report s1,
    lead_agent main_question (new_system w) = (Return report, s1)
    /\ input (example_of report) = main_question
    /\ Forall (fun v => exists finding, v = Str finding)
              (retrieval_context (example_of report))
    /\ (example_error (example_of report) = None ->
        exists evaluation s2,
          evaluate_research_quality report s1 = (Return evaluation, s2)
          /\ main w = (Return (report, evaluation), s2)
          /\ (length (research_database s2) <= 3)%nat)
    /\ (forall e,
          example_error (example_of report) = Some e ->
          main w = (Raise e, s1)).
Proof.
  destruct (try_except_total
              (lead_agent_try research_agent main_question)
              (minimal_report main_question) (new_system w))
    as (report & s1 & Hlead).
  change (lead_agent main_question (new_system w) = (Return report, s1))
    in Hlead.
  exists report, s1. split; [exact Hlead|].
  split.
  { pose proof (lead_agent_report_question _ _ _ _ Hlead) as Hq.
    exact Hq. }
  split.
  { simpl. apply Forall_map.
    exact (lead_agent_findings _ _ _ _ Hlead). }
  split.
  - intros Hok.
    assert (Heval : exists evaluation s2,
               evaluate_research_quality report s1 = (Return evaluation, s2)).
    { rewrite (evaluate_research_quality_accepted _ _ Hok).
      apply try_except_total. }
    destruct Heval as (evaluation & s2 & Heval).
    exists evaluation, s2. split; [exact Heval|]. split.
    + unfold main.
      erewrite bind_Return by exact Hlead.
      erewrite bind_Return by exact Heval.
      destruct evaluation as [[|] scores details | error]; reflexivity.
    + destruct (lead_agent_store _ _ _ _ Hlead)
        as (stored & Hdb & Hlen & _).
      rewrite (evaluate_research_quality_database _ _ _ _ Heval), Hdb.
      simpl. lia.
  - intros e Hrejected. unfold main.
    erewrite bind_Return by exact Hlead.
    apply bind_Raise. now apply evaluate_research_quality_rejected.
Qed.

End EntryPoint.

(** ** What the synthesis call is shown *)

Lemma append_nil_r (x : string) : x +:+ EmptyString = x.
Proof.
  induction x as [|a x IH]; [reflexivity|].
  rewrite append_cons. now rewrite IH.
Qed.

Lemma append_assoc (x y z : string) : (x +:+ y) +:+ z = x +:+ y +:+ z.
Proof.
  induction x as [|a x IH]; [reflexivity|].
  rewrite !append_cons. now rewrite IH.
Qed.

Lemma contains_refl (x : string) : PyStr.contains x x.
Proof. exists EmptyString, EmptyString. now rewrite append_nil_r. Qed.

Lemma contains_append_l (x a s : string) :
  PyStr.contains x s -> PyStr.contains x (a +:+ s).
Proof.
  intros (before & after & ->). exists (a +:+ before), after.
  now rewrite append_assoc.
Qed.

Lemma contains_append_r (x s a : string) :
  PyStr.contains x s -> PyStr.contains x (s +:+ a).
Proof.
  intros (before & after & ->). exists before, (after +:+ a).
  now rewrite !append_assoc.
Qed.

Lemma contains_join sep x parts :
  In x parts -> PyStr.contains x (PyStr.join sep parts).
Proof.
  induction parts as [|y rest IH]; [easy|].
  intros [->|Hin].
  - destruct rest; [apply contains_refl|].
    change (PyStr.contains x (x +:+ sep +:+ PyStr.join sep (s :: rest))).
    apply contains_append_r, contains_refl.
  - destruct rest as [|z rest]; [easy|].
    change (PyStr.contains x (y +:+ sep +:+ PyStr.join sep (z :: rest))).
    now apply contains_append_l, contains_append_l, IH.
Qed.

(** X11. When the findings join, every collected record has a text as
    findings, and the user message of the synthesis request shows the
    research question and the findings of every record, the failure
    texts of degraded records included. *)
Theorem synthesis_request_shows_every_finding
    q (records : list AgentRecord) all_findings r :
  join_items PyStr.newline (map findings records) = Return all_findings ->
  In r records ->
  exists finding system_message user_message,
    findings r = Str finding
    /\ messages (synthesis_request q all_findings)
       = [system_message; user_message]
    /\ role user_message = "user"
    /\ PyStr.contains q (content user_message)
    /\ PyStr.contains finding (content user_message).
Proof.
  unfold join_items. intros Hjoin Hin.
  destruct (str_items 0 (map findings records)) as [strings|e] eqn:Hitems;
    [|discriminate].
  injection Hjoin as <-.
  destruct (str_items_all _ _ _ Hitems (findings r)) as (f & Hf & Hfin).
  { now apply in_map. }
  exists f. eexists _, _. split; [exact Hf|].
  split; [reflexivity|]. split; [reflexivity|]. simpl content. split.
  - apply contains_middle.
  - do 6 apply contains_append_l. apply contains_append_r.
    now apply contains_join.
Qed.

(** ** The further properties on concrete runs *)

(** A plan with a heading, padding and a blank line. *)
Lemma decomposed_subtopics_are_clean_witness :
  decompose "Q?"
    (Scripted.fresh
       [Scripted.text ("# Plan" +:+ PyStr.newline +:+ "  1. Costs "
                       +:+ PyStr.newline +:+ PyStr.newline +:+ "2. Grid")]
       (Raise "down"))
  = (Return ["1. Costs"; "2. Grid"], Scripted.fresh [] (Raise "down"))
  /\ (1 <= length ["1. Costs"; "2. Grid"] <= 3)%nat
  /\ Forall clean_subtopic ["1. Costs"; "2. Grid"].
Proof.
  split; [reflexivity|].
  apply (decomposed_subtopics_are_clean (P := Scripted.providers) "Q?"
           (Scripted.fresh
              [Scripted.text ("# Plan" +:+ PyStr.newline +:+ "  1. Costs "
                              +:+ PyStr.newline +:+ PyStr.newline
                              +:+ "2. Grid")]
              (Raise "down"))
           ["1. Costs"; "2. Grid"] (Scripted.fresh [] (Raise "down"))).
  reflexivity.
Defined.

(** Four clean lines: the first three come back. *)
Lemma parse_of_joined_subtopics_witness :
  parse_subtopics
    (PyStr.join PyStr.newline ["Costs"; "Grid access"; "Policy"; "Extra"])
  = ["Costs"; "Grid access"; "Policy"].
Proof.
  apply (parse_of_joined_subtopics
           ["Costs"; "Grid access"; "Policy"; "Extra"]).
  repeat constructor.
Defined.

(** A service that reports success. *)
Lemma success_comes_from_the_service_witness :
  let s := Scripted.fresh [] (Return [Scripted.scored]) in
  let report := minimal_report "Q?" "boom" in
  let entries := [ {| name := "Faithfulness"; score := 9 # 10 |};
                   {| name := "Answer Relevancy"; score := 8 # 10 |} ] in
  exists first others data,
    @run_evaluation Scripted.providers (evaluation_request report) (world s)
    = (Return (first :: others), world s)
    /\ success first = true
    /\ scorers_data first = Some data
    /\ Summary true (scores_of (P := Scripted.providers) entries) entries
       = Summary true (scores_of data) data
    /\ research_database s = research_database s.
Proof.
  intros s report entries.
  exact (success_comes_from_the_service (P := Scripted.providers)
           report s
           (Summary true (scores_of (P := Scripted.providers) entries) entries) s
           eq_refl eq_refl).
Defined.

(** Two subtopics; the first worker's model call raises. *)
Lemma lead_agent_report_is_complete_witness :
  exists rep s',
    lead_agent "Q?"
      (Scripted.fresh
         [Scripted.text ("Costs" +:+ PyStr.newline +:+ "Grid");
          Raise "rate limit"; Scripted.text "fine"; Scripted.text "done"]
         (Raise "down"))
    = (Return rep, s')
    /\ map findings (individual_research rep)
       = [Str "Research failed: rate limit"; Str "fine"]
    /\ ((exists e, rep = minimal_report "Q?" e)
        \/ (research_question rep = "Q?"
            /\ (1 <= length (subtopics rep) <= 3)%nat
            /\ Forall clean_subtopic (subtopics rep)
            /\ map topic (individual_research rep) = subtopics rep
            /\ map agent_id (individual_research rep)
               = seqZ 1 (Z.of_nat (length (subtopics rep)))
            /\ total_agents_used rep = length (subtopics rep))).
Proof.
  eexists _, _. split; [reflexivity|]. split; [reflexivity|].
  eapply (lead_agent_report_is_complete (P := Scripted.providers) "Q?"
            (Scripted.fresh
               [Scripted.text ("Costs" +:+ PyStr.newline +:+ "Grid");
                Raise "rate limit"; Scripted.text "fine"; Scripted.text "done"]
               (Raise "down"))).
  reflexivity.
Defined.

(** The same run: only the second record reaches the store. *)
Lemma lead_agent_appends_to_the_store_witness :
  exists rep s' stored,
    lead_agent "Q?"
      (Scripted.fresh
         [Scripted.text ("Costs" +:+ PyStr.newline +:+ "Grid");
          Raise "rate limit"; Scripted.text "fine"; Scripted.text "done"]
         (Raise "down"))
    = (Return rep, s')
    /\ research_database s' = [] ++ stored
    /\ (length stored <= 3)%nat
    /\ Forall (fun r => has_sources r = true) stored
    /\ (individual_research rep <> [] ->
        stored = List.filter has_sources (individual_research rep)).
Proof.
  eexists _, _.
  destruct (lead_agent_appends_to_the_store (P := Scripted.providers) "Q?"
              (Scripted.fresh
                 [Scripted.text ("Costs" +:+ PyStr.newline +:+ "Grid");
                  Raise "rate limit"; Scripted.text "fine";
                  Scripted.text "done"]
                 (Raise "down"))
              _ _ eq_refl)
    as (stored & Hstored).
  exists stored. split; [reflexivity | exact Hstored].
Defined.

(** A worker run that succeeds: the counter goes from 7 to 8. *)
Lemma worker_makes_one_call_witness :
  exists r s',
    research_agent (P := counting Scripted.providers) "Costs" 1
      (@Build_system (counting Scripted.providers) []
         (([Scripted.text "fine"], Raise "down"), 7%nat))
    = (Return r, s')
    /\ calls s' = 8%nat.
Proof.
  eexists _, _. split; [reflexivity|].
  apply (worker_makes_one_call (P := Scripted.providers) "Costs" 1
           (@Build_system (counting Scripted.providers) []
              (([Scripted.text "fine"], Raise "down"), 7%nat))
           _ _ eq_refl).
Defined.

(** Two subtopics: planning, two workers and the synthesis make four
    calls; with a second worker whose content is [None] the join raises
    and there are three; a planning call that raises is the only call. *)
Lemma lead_agent_call_count_witness :
  (exists rep s',
      lead_agent (P := counting Scripted.providers) "Q?"
        (@Build_system (counting Scripted.providers) []
           (([Scripted.text ("Costs" +:+ PyStr.newline +:+ "Grid")],
             Raise "down"), 0%nat))
      = (Return rep, s')
      /\ total_agents_used rep = 2%nat
      /\ calls s' = 4%nat)
  /\ (exists rep s',
        lead_agent (P := counting Scripted.providers) "Q?"
          (@Build_system (counting Scripted.providers) []
             (([Scripted.text ("Costs" +:+ PyStr.newline +:+ "Grid");
                Scripted.text "fine"; Return (Choices [PyNone])],
               Raise "down"), 0%nat))
        = (Return rep, s')
        /\ total_agents_used rep = 0%nat
        /\ calls s' = 3%nat)
  /\ (exists rep s',
        lead_agent (P := counting Scripted.providers) "Q?"
          (@Build_system (counting Scripted.providers) []
             (([Raise "boom"], Raise "down"), 0%nat))
        = (Return rep, s')
        /\ calls s' = 1%nat).
Proof.
  split; [|split].
  - eexists _, _. split; [reflexivity|]. split; [reflexivity|].
    destruct (lead_agent_call_count (P := Scripted.providers) "Q?"
                (@Build_system (counting Scripted.providers) []
                   (([Scripted.text ("Costs" +:+ PyStr.newline +:+ "Grid")],
                     Raise "down"), 0%nat))
                _ _ eq_refl)
      as (_ & _ & _ & _ & Hrecords).
    apply Hrecords. discriminate.
  - eexists _, _. split; [reflexivity|]. split; [reflexivity|].
    destruct (lead_agent_call_count (P := Scripted.providers) "Q?"
                (@Build_system (counting Scripted.providers) []
                   (([Scripted.text ("Costs" +:+ PyStr.newline +:+ "Grid");
                      Scripted.text "fine"; Return (Choices [PyNone])],
                     Raise "down"), 0%nat))
                _ _ eq_refl)
      as (_ & _ & Hsteps & _).
    destruct (Hsteps _ _ eq_refl) as (records & s1 & Hrun & _ & _ & Hjoin).
    injection Hrun as <- _.
    exact (Hjoin _ eq_refl).
  - eexists _, _. split; [reflexivity|].
    destruct (lead_agent_call_count (P := Scripted.providers) "Q?"
                (@Build_system (counting Scripted.providers) []
                   (([Raise "boom"], Raise "down"), 0%nat))
                _ _ eq_refl)
      as (Hplanning & _).
    exact (Hplanning "boom" (([], Raise "down"), 1%nat) eq_refl).
Defined.

(** A degraded record's failure text is part of the prompt. *)
Lemma synthesis_request_shows_every_finding_witness :
  let failed := {| agent_id := 1; topic := "Costs";
                   findings := "Research failed: rate limit";
                   record_sources := []; search_query := "Costs" |} in
  let fine := {| agent_id := 2; topic := "Grid"; findings := "fine";
                 record_sources := []; search_query := "Grid" |} in
  let all_findings :=
    "Research failed: rate limit" +:+ PyStr.newline +:+ "fine" in
  exists finding system_message user_message,
    findings failed = Str finding
    /\ messages (synthesis_request "Q?" all_findings)
       = [system_message; user_message]
    /\ role user_message = "user"
    /\ PyStr.contains "Q?" (content user_message)
    /\ PyStr.contains finding (content user_message).
Proof.
  intros failed fine all_findings.
  apply (synthesis_request_shows_every_finding "Q?" [failed; fine]
           all_findings failed).
  - reflexivity.
  - left. reflexivity.
Defined.

(** A run of [main] with providers that give nothing and an evaluation
    service that is down: the report and the failure dict come back. *)
Lemma main_returns_unless_example_rejects_witness :
  exists report s2,
    main (P := Scripted.providers) ([], Raise "down")
    = (Return (report, EvaluationFailed "down"), s2)
    /\ total_agents_used report = 3%nat
    /\ (length (research_database s2) <= 3)%nat.
Proof.
  destruct (main_returns_unless_example_rejects (P := Scripted.providers)
              ([], Raise "down"))
    as (report & s1 & Hlead & _ & _ & Haccepted & _).
  vm_compute in Hlead. injection Hlead as <- <-.
  destruct (Haccepted eq_refl) as (evaluation & s2 & Heval & Hmain & Hlen).
  vm_compute in Heval. injection Heval as <- <-.
  eexists _, _. split; [exact Hmain|]. split; [reflexivity | exact Hlen].
Defined.

(** Two records, one of them degraded: both findings are texts. *)
Lemma report_findings_are_text_witness :
  exists rep s',
    lead_agent "Q?"
      (Scripted.fresh
         [Scripted.text ("Costs" +:+ PyStr.newline +:+ "Grid");
          Raise "rate limit"; Scripted.text "fine"; Scripted.text "done"]
         (Raise "down"))
    = (Return rep, s')
    /\ length (individual_research rep) = 2%nat
    /\ Forall (fun r => exists finding, findings r = Str finding)
              (individual_research rep).
Proof.
  eexists _, _. split; [reflexivity|]. split; [reflexivity|].
  eapply (report_findings_are_text (P := Scripted.providers) "Q?"
            (Scripted.fresh
               [Scripted.text ("Costs" +:+ PyStr.newline +:+ "Grid");
                Raise "rate limit"; Scripted.text "fine"; Scripted.text "done"]
               (Raise "down"))).
  reflexivity.
Defined.
